(** * The fetch server of mcp-librechat ([src/servers/fetch/main.py])

    A shallow embedding of the fetch tool: robots gate, retrieval of the
    target, content-type branch, HTML simplification and the pagination
    window, followed by the properties of the specification.

    Conventions.
    - A Python [str] is a sequence of code points: [str := list N].
      Literals of the source are written [lit "..."].
    - Header names and values are [string]: [http.client] decodes header
      bytes as ISO-8859-1, so every character of a header is one of the 256
      values of [ascii].
    - A Python [int] is a [Z].
    - What the program calls outside itself ([requests.get],
      [urllib.parse.urlparse], [protego], [readabilipy], [markdownify]) is a
      parameter of the development, and each call may raise;
      [raise_for_status], the header dictionary and [urlunparse] are written
      out as their libraries have them. *)

From Stdlib Require Import ZArith Ascii String DecimalString.
From stdpp Require Import base tactics option list strings gmap.

Local Open Scope Z_scope.

(** ** Python text *)

Module Py.

Definition char : Type := N.
Definition str : Type := list char.

(** A literal of the source, as a sequence of code points. *)
Definition lit (s : string) : str :=
  List.map N_of_ascii (list_ascii_of_string s).

(** [len(s)] *)
Definition len {A} (s : list A) : Z := Z.of_nat (length s).

(** Truth value of a [str]: the empty string is false. *)
Definition truthy (s : str) : bool :=
  match s with [] => false | _ :: _ => true end.

(** How a slice bound is clamped for a sequence of length [n]
    ([PySlice_AdjustIndices] with step 1): a negative bound counts from the
    end, and every bound is brought into [0 .. n]. *)
Definition adjust_index (n i : Z) : Z :=
  if i <? 0 then Z.max (i + n) 0 else Z.min i n.

(** [s[lo:hi]] *)
Definition slice {A} (s : list A) (lo hi : Z) : list A :=
  let n := len s in
  let lo' := adjust_index n lo in
  let hi' := adjust_index n hi in
  take (Z.to_nat (hi' - lo')) (drop (Z.to_nat lo') s).

(** [s[:hi]] *)
Definition slice_to {A} (s : list A) (hi : Z) : list A := slice s 0 hi.

(** [str(n)] for an [int]. *)
Definition str_of_int (n : Z) : str :=
  lit (NilZero.string_of_int (Z.to_int n)).

End Py.

Import Py.

(** ** The pagination window: lines 109-112 of [fetch] *)

Definition paginate (content : str) (start_index max_length : Z) : str :=
  if start_index >=? len content then []
  else slice content start_index (start_index + max_length).

(** ** Header text (ISO-8859-1) *)

Module Latin1.

(** [c.lower()] for one character below U+0100: the letters A-Z and the
    accented capitals U+00C0-U+00DE (the multiplication sign U+00D7 apart)
    move up by 32; every other character stays. *)
Definition lower_char (c : ascii) : ascii :=
  let n := N_of_ascii c in
  if ((65 <=? n) && (n <=? 90) ||
      (192 <=? n) && (n <=? 222) && negb (n =? 215))%N
  then ascii_of_N (n + 32) else c.

(** [s.lower()] *)
Fixpoint lower (s : string) : string :=
  match s with
  | EmptyString => EmptyString
  | String c s' => String (lower_char c) (lower s')
  end.

(** [needle in hay] *)
Fixpoint contains (needle hay : string) : bool :=
  String.prefix needle hay ||
  match hay with
  | EmptyString => false
  | String _ hay' => contains needle hay'
  end.

End Latin1.

(** ** [requests]: requests, responses, header dictionaries *)

(** [requests.structures.CaseInsensitiveDict]: the store maps the
    lower-cased key to the pair of the key as it was written and its
    value. *)
Abbreviation CaseInsensitiveDict := (gmap string (string * string)).

(** [d[key] = value] *)
Definition cid_setitem (key value : string) (d : CaseInsensitiveDict)
  : CaseInsensitiveDict :=
  <[Latin1.lower key := (key, value)]> d.

(** [d.get(key, default)] *)
Definition cid_get (d : CaseInsensitiveDict) (key default : string) : string :=
  match d !! Latin1.lower key with
  | Some (_, value) => value
  | None => default
  end.

(** The dictionary built from the header lines of a response, in order. *)
Definition cid_of_list (l : list (string * string)) : CaseInsensitiveDict :=
  foldl (fun d kv => cid_setitem kv.1 kv.2 d) ∅ l.

Record Response := {
  status_code : Z;
  reason : str;
  response_url : str;
  headers : CaseInsensitiveDict;
  text : str
}.

(** [response.headers.get(key, default)] *)
Definition headers_get (response : Response) (key default : string) : string :=
  cid_get (headers response) key default.

(** What [requests.get(url, headers=...)] sends. *)
Record Request := {
  req_url : str;
  req_headers : list (str * str)
}.

(** ** Exceptions and outcomes *)

(** Every exception of the program is an instance of [Exception]. *)
Inductive exn :=
| ValueError (msg : str)
| HTTPError (msg : str) (response : Response)
| ConnectionError (msg : str)
| OtherException (msg : str).

(** The outcome of a call: a value, or a raised exception. *)
Inductive outcome (A : Type) :=
| Return (a : A)
| Raise (e : exn).
Arguments Return {A} a.
Arguments Raise {A} e.

Global Instance outcome_ret : MRet outcome := fun A a => Return a.
Global Instance outcome_bind : MBind outcome := fun A B f m =>
  match m with
  | Return a => f a
  | Raise e => Raise e
  end.

(** [Response.raise_for_status()] of [requests]: an [HTTPError] that holds
    the response, for the status codes 400-599. The reason phrase is taken
    as text. *)
Definition raise_for_status (response : Response) : outcome unit :=
  let http_error_msg :=
    if (400 <=? status_code response) && (status_code response <? 500) then
      str_of_int (status_code response) ++ lit " Client Error: " ++
      reason response ++ lit " for url: " ++ response_url response
    else if (500 <=? status_code response) && (status_code response <? 600) then
      str_of_int (status_code response) ++ lit " Server Error: " ++
      reason response ++ lit " for url: " ++ response_url response
    else [] in
  if truthy http_error_msg then Raise (HTTPError http_error_msg response)
  else Return tt.

(** ** [urllib.parse] *)

Record ParseResult := {
  scheme : str;
  netloc : str;
  path : str;
  params : str;
  query : str;
  fragment : str
}.

(** [a or b] on strings. *)
Definition str_or (a b : str) : str := if truthy a then a else b.

Section Urlunparse.

(** The table [uses_netloc] of [urllib.parse]. *)
Variable uses_netloc : list str.

(** [urlunsplit((scheme, netloc, url, query, fragment))], as in
    CPython 3.11. *)
Definition urlunsplit (components : str * str * str * str * str) : str :=
  let '(scheme, netloc, url, query, fragment) := components in
  let url :=
    if truthy netloc ||
       (truthy scheme && bool_decide (scheme ∈ uses_netloc) &&
        negb (bool_decide (slice_to url 2 = lit "//")))
    then
      let url :=
        if truthy url && negb (bool_decide (slice_to url 1 = lit "/"))
        then lit "/" ++ url else url in
      lit "//" ++ str_or netloc [] ++ url
    else url in
  let url := if truthy scheme then scheme ++ lit ":" ++ url else url in
  let url := if truthy query then url ++ lit "?" ++ query else url in
  let url := if truthy fragment then url ++ lit "#" ++ fragment else url in
  url.

(** [urlunparse((scheme, netloc, url, params, query, fragment))] *)
Definition urlunparse (components : str * str * str * str * str * str) : str :=
  let '(scheme, netloc, url, params, query, fragment) := components in
  let url := if truthy params then url ++ lit ";" ++ params else url in
  urlunsplit (scheme, netloc, url, query, fragment).

End Urlunparse.

(** ** [readabilipy] and [markdownify] *)

(** The dictionary [simple_json_from_html_string] returns; the program reads
    its key ["content"], which holds [None] or a string of HTML. *)
Record SimpleJson := {
  title : option str;
  content : option str
}.

(** The heading styles of [markdownify]. *)
Inductive heading_style := ATX | ATX_CLOSED | SETEXT | UNDERLINED.

(** Truth value of [None] or a string. *)
Definition truthy_opt (o : option str) : bool :=
  match o with
  | None => false
  | Some s => truthy s
  end.

(** ** The program *)

Definition DEFAULT_USER_AGENT_AUTONOMOUS : str :=
  lit "ModelContextProtocol/1.0 (Autonomous; +https://github.com/modelcontextprotocol/servers)".
Definition DEFAULT_USER_AGENT_MANUAL : str :=
  lit "ModelContextProtocol/1.0 (User-Specified; +https://github.com/modelcontextprotocol/servers)".

(** The string [extract_content_from_html] returns when nothing was
    extracted. *)
Definition simplification_failed : str :=
  lit "<e>Page failed to be simplified from HTML<e>".

(** What the program runs against: the network and the libraries. Each
    library function returns or raises.
    - [network]: [requests.get] answers a request with a response or raises,
      and the network may change by it;
    - [uses_netloc], [urlparse]: of [urllib.parse];
    - [Protego_parse], [can_fetch]: [Protego.parse], and
      [Protego.can_fetch(self, url, user_agent)] with its parameters in this
      order;
    - [simple_json_from_html_string]: of [readabilipy.simple_json], with its
      flag [use_readability];
    - [markdownify]: of [markdownify], with its [heading_style]. *)
Class Environment := {
  World : Type;
  network : Request -> World -> outcome Response * World;
  uses_netloc : list str;
  urlparse : str -> outcome ParseResult;
  Protego : Type;
  Protego_parse : str -> outcome Protego;
  can_fetch : Protego -> str -> str -> outcome bool;
  simple_json_from_html_string : str -> bool -> outcome SimpleJson;
  markdownify : str -> heading_style -> outcome str
}.

Section Program.

Context {env : Environment}.

(** The state a call runs in: the network, and the requests sent so far,
    oldest first. *)
Record State := {
  world : World;
  sent : list Request
}.

(** A computation: runs in a state, returns or raises, leaves a state. *)
Definition M (A : Type) : Type := State -> outcome A * State.

Global Instance M_ret : MRet M := fun A a st => (Return a, st).
Global Instance M_bind : MBind M := fun A B f m st =>
  match m st with
  | (Return a, st') => f a st'
  | (Raise e, st') => (Raise e, st')
  end.

(** A call of a library function. *)
Definition call {A} (r : outcome A) : M A := fun st => (r, st).

(** [raise e] *)
Definition raise {A} (e : exn) : M A := fun st => (Raise e, st).

(** [try: body / except Exception as e: handler]: what [body] did before it
    raised stays done. *)
Definition try_except {A} (body : M A) (handler : exn -> M A) : M A :=
  fun st =>
    match body st with
    | (Return a, st') => (Return a, st')
    | (Raise e, st') => handler e st'
    end.

(** [requests.get(url, headers=headers)] *)
Definition requests_get (url : str) (headers : list (str * str)) : M Response :=
  fun st =>
    let req := {| req_url := url; req_headers := headers |} in
    let '(r, w) := network req (world st) in
    (r, {| world := w; sent := sent st ++ [req] |}).

Definition extract_content_from_html (html : str) : outcome str :=
  ret ← simple_json_from_html_string html true;
  match content ret with
  | None => Return simplification_failed
  | Some c =>
      if negb (truthy c) then Return simplification_failed
      else markdownify c ATX
  end.

Definition get_robots_txt_url (url : str) : outcome str :=
  parsed ← urlparse url;
  Return (urlunparse uses_netloc
            (scheme parsed, netloc parsed, lit "/robots.txt", [], [], [])).

(** The call of [can_fetch] passes [user_agent] first and [url] second, as
    the source does. *)
Definition check_may_autonomously_fetch_url (url user_agent : str) : M unit :=
  robots_txt_url ← call (get_robots_txt_url url);
  try_except
    (response ← requests_get robots_txt_url [];
     rp ← call (Protego_parse (text response));
     allowed ← call (can_fetch rp user_agent url);
     if negb allowed then
       raise (ValueError
                (lit "URL " ++ url ++ lit " is not allowed to be fetched by " ++
                 user_agent ++ lit " according to robots.txt"))
     else mret tt)
    (fun e => mret tt).

Definition fetch_url (url user_agent : str) (force_raw : bool) : M str :=
  let headers := [(lit "User-Agent", user_agent)] in
  response ← requests_get url headers;
  call (raise_for_status response);;
  let content_type :=
    Latin1.lower (headers_get response "content-type" "") in
  if negb force_raw && Latin1.contains "text/html" content_type then
    call (extract_content_from_html (text response))
  else mret (text response).

(** The tool [fetch]; its defaults are [max_length = 5000],
    [start_index = 0], [raw = False]. The class [Fetch] of the source, with
    its bounds on [max_length] and [start_index], is not used by it: the
    arguments are any integers. *)
Definition fetch (url : str) (max_length start_index : Z) (raw : bool) : M str :=
  check_may_autonomously_fetch_url url DEFAULT_USER_AGENT_AUTONOMOUS;;
  content ← fetch_url url DEFAULT_USER_AGENT_AUTONOMOUS raw;
  mret (paginate content start_index max_length).

End Program.

(** The two requests of [fetch]: the one for the robots document, sent
    without headers of the program's own, and the one for the target. *)
Definition robots_request (robots_txt_url : str) : Request :=
  {| req_url := robots_txt_url; req_headers := [] |}.
Definition target_request (url user_agent : str) : Request :=
  {| req_url := url; req_headers := [(lit "User-Agent", user_agent)] |}.

(** What [fetch_url] makes of the response it received. *)
Definition content_of `{Environment} (response : Response) (force_raw : bool)
  : outcome str :=
  raise_for_status response;;
  if negb force_raw &&
     Latin1.contains "text/html"
       (Latin1.lower (headers_get response "content-type" ""))
  then extract_content_from_html (text response)
  else Return (text response).

(** ** The content classes of the specification

    The program has no classifier of its own: the test of lines 55-56 of
    [fetch_url] is named here. *)

Inductive ContentClass := Html | Other.

Definition classify (response : Response) : ContentClass :=
  if Latin1.contains "text/html"
       (Latin1.lower (headers_get response "content-type" ""))
  then Html else Other.

(** [mid] occurs in [value]. *)
Definition occurs_in (mid value : string) : Prop :=
  exists before after, value = before +:+ mid +:+ after.

(** [value] contains [needle] when the case of letters is ignored: some
    part of [value] equals [needle] once lower-cased. *)
Definition contains_ignoring_case (needle value : string) : Prop :=
  exists mid, occurs_in mid value /\ Latin1.lower mid = needle.

(** The case of letters, said without lower-casing anything: [c] is [d], or
    [d] is one of the small letters a-z and [c] is its capital. *)
Definition letter_variant (c d : ascii) : Prop :=
  c = d \/
  (97 <= N_of_ascii d <= 122 /\ N_of_ascii c + 32 = N_of_ascii d)%N.

(** [s] is [t] up to the case of its letters: of the same length, and
    character by character a [letter_variant]. *)
Fixpoint case_variant (s t : string) : Prop :=
  match s, t with
  | EmptyString, EmptyString => True
  | String c s', String d t' => letter_variant c d /\ case_variant s' t'
  | _, _ => False
  end.

(** [value] has a part that is [needle] up to the case of its letters. *)
Definition contains_variant_of (needle value : string) : Prop :=
  exists before mid after,
    value = before +:+ mid +:+ after /\ case_variant mid needle.

(** A text of ASCII characters without capitals, as the two texts the
    program looks for are. *)
Fixpoint plain (t : string) : Prop :=
  match t with
  | EmptyString => True
  | String d t' =>
      ((N_of_ascii d < 128)%N /\ ~ (65 <= N_of_ascii d <= 90)%N) /\ plain t'
  end.

(** ** Terms of the specification *)

(** The robots document could not be retrieved or parsed: the request failed
    (network error), the answer has a status other than 200, or its text is
    not accepted by the parser (malformed content). *)
Inductive robots_undeterminable `{Environment} (w : World) (robots_txt_url : str)
  : Prop :=
| robots_network_error e w' :
    network (robots_request robots_txt_url) w = (Raise e, w') ->
    robots_undeterminable w robots_txt_url
| robots_status_not_200 response w' :
    network (robots_request robots_txt_url) w = (Return response, w') ->
    status_code response <> 200 ->
    robots_undeterminable w robots_txt_url
| robots_malformed response w' e :
    network (robots_request robots_txt_url) w = (Return response, w') ->
    Protego_parse (text response) = Raise e ->
    robots_undeterminable w robots_txt_url.

(** A success status of HTTP: the class 2xx. *)
Definition successful (status : Z) : Prop := 200 <= status < 300.

(** The state [fetch] is in once the robots check is over. *)
Definition after_robots_check `{Environment} (st : State) (robots_txt_url : str)
  : State :=
  {| world := (network (robots_request robots_txt_url) (world st)).2;
     sent := sent st ++ [robots_request robots_txt_url] |}.

(** [fetch] without its robots check. *)
Definition fetch_unchecked `{Environment} (url : str) (max_length start_index : Z)
    (raw : bool) : M str :=
  content ← fetch_url url DEFAULT_USER_AGENT_AUTONOMOUS raw;
  mret (paginate content start_index max_length).

(** ** A small environment to run the program in

    One host with a robots document that closes [/private], a few pages,
    and stand-ins for the libraries that agree with them on these
    documents. *)

Module Demo.

Definition newline : str := [10%N].

Definition robots_txt : str :=
  lit "User-agent: *" ++ newline ++ lit "Disallow: /private".

Definition page (status : Z) (why : string) (address : string)
    (content_type : string) (body : str) : Response :=
  {| status_code := status;
     reason := lit why;
     response_url := lit address;
     headers := cid_of_list [("Content-Type"%string, content_type)];
     text := body |}.

Definition site : list Response :=
  [ page 200 "OK" "https://example.com/robots.txt" "text/plain" robots_txt
  ; page 200 "OK" "https://example.com/private" "text/plain"
      (lit "members only")
  ; page 200 "OK" "https://example.com/digits" "text/plain"
      (lit "0123456789ABCDEF")
  ; page 200 "OK" "https://example.com/data" "application/json" (lit "{}")
  ; page 200 "OK" "https://example.com/empty" "Text/HTML; charset=utf-8"
      (lit "<html></html>")
  ; page 404 "Not Found" "https://example.com/gone" "text/plain"
      (lit "no such page")
  ; page 300 "Multiple Choices" "https://example.com/choices" "text/plain"
      (lit "pick one")
  ; page 404 "Not Found" "https://bare.example/robots.txt" "text/plain"
      (lit "no robots here")
  ; page 200 "OK" "https://bare.example/page" "text/plain" (lit "hello")
  ; page 200 "OK" "https://quiet.example/page" "text/plain" (lit "hello") ].

(** The answer to a request is the page of [site] at its address; the
    connection is refused for any other address. *)
Definition serve (req : Request) (w : unit) : outcome Response * unit :=
  match list_find (fun response => req_url req = response_url response) site with
  | Some (_, response) => (Return response, w)
  | None => (Raise (ConnectionError (lit "Connection refused")), w)
  end.

(** [s] up to the first [c], and what follows that [c]. *)
Fixpoint break (c : char) (s : str) : str * str :=
  match s with
  | [] => ([], [])
  | x :: s' =>
      if (x =? c)%N then ([], s')
      else let '(a, b) := break c s' in (x :: a, b)
  end.

(** [s] up to the first [c], and the rest from that [c] on. *)
Fixpoint span_until (c : char) (s : str) : str * str :=
  match s with
  | [] => ([], [])
  | x :: s' =>
      if (x =? c)%N then ([], s)
      else let '(a, b) := span_until c s' in (x :: a, b)
  end.

(** Stand-in for [urlparse], for URLs [scheme://host/path?query#fragment]
    in lower case without parameters; an unmatched bracket in the host is
    refused as [urlparse] refuses it. *)
Definition parse_url (url : str) : outcome ParseResult :=
  let '(scheme, rest) := break 58%N url in
  match rest with
  | 47%N :: 47%N :: rest' =>
      let '(rest', fragment) := break 35%N rest' in
      let '(rest', query) := break 63%N rest' in
      let '(netloc, path) := span_until 47%N rest' in
      if bool_decide (91%N ∈ netloc) && negb (bool_decide (93%N ∈ netloc))
      then Raise (ValueError (lit "Invalid IPv6 URL"))
      else Return {| scheme := scheme; netloc := netloc; path := path;
                     params := []; query := query; fragment := fragment |}
  | _ => Return {| scheme := []; netloc := []; path := url;
                   params := []; query := []; fragment := [] |}
  end.

(** Stand-in for [Protego]: the parsed document is its text, and
    [robots_txt] closes the URLs under [https://example.com/private] to
    every agent. *)
Definition robots_can_fetch (rp url user_agent : str) : outcome bool :=
  Return (negb (bool_decide (rp = robots_txt) &&
                bool_decide (take 27 url = lit "https://example.com/private"))).

(** Stand-ins for [readabilipy] and [markdownify]: nothing is extracted from
    a document without a body, and Markdown text is left as it is. *)
Definition simple_json (html : str) (use_readability : bool) : outcome SimpleJson :=
  Return {| title := None;
            content := if bool_decide (html = lit "<html></html>") then None
                       else Some html |}.

Definition to_markdown (html : str) (style : heading_style) : outcome str :=
  Return html.

Definition environment : Environment :=
  {| World := unit;
     network := serve;
     uses_netloc := [[]; lit "ftp"; lit "http"; lit "file"; lit "https";
                     lit "ws"; lit "wss"];
     urlparse := parse_url;
     Protego := str;
     Protego_parse := fun text => Return text;
     can_fetch := robots_can_fetch;
     simple_json_from_html_string := simple_json;
     markdownify := to_markdown |}.

Definition start : @State environment := @Build_State environment tt [].

End Demo.

(** ** A second site, with pages of HTML

    The site of [Demo] and two pages of HTML: one the simplifier renders,
    one it gives up on with an error. *)

Module Tour.

Definition article : str := lit "<html><body><p>Hello</p></body></html>".
Definition broken : str := lit "<html><body><p>Hello".

Definition site : list Response :=
  Demo.site ++
  [ Demo.page 200 "OK" "https://example.com/article" "text/html" article
  ; Demo.page 200 "OK" "https://example.com/broken" "text/html" broken ].

Definition serve (req : Request) (w : unit) : outcome Response * unit :=
  match list_find (fun response => req_url req = response_url response) site with
  | Some (_, response) => (Return response, w)
  | None => (Raise (ConnectionError (lit "Connection refused")), w)
  end.

(** Stand-in for [readabilipy]: the body of [article] is extracted, and
    [broken] makes the extraction fail. *)
Definition simple_json (html : str) (use_readability : bool) : outcome SimpleJson :=
  if bool_decide (html = article) then
    Return {| title := None; content := Some (lit "<p>Hello</p>") |}
  else if bool_decide (html = broken) then
    Raise (OtherException (lit "extraction failed"))
  else Demo.simple_json html use_readability.

(** Stand-in for [markdownify]: the paragraph of [article] as Markdown. *)
Definition to_markdown (html : str) (style : heading_style) : outcome str :=
  if bool_decide (html = lit "<p>Hello</p>") then Return (lit "Hello")
  else Return html.

Definition environment : Environment :=
  {| World := unit;
     network := serve;
     uses_netloc := @uses_netloc Demo.environment;
     urlparse := Demo.parse_url;
     Protego := str;
     Protego_parse := fun text => Return text;
     can_fetch := Demo.robots_can_fetch;
     simple_json_from_html_string := simple_json;
     markdownify := to_markdown |}.

Definition start : @State environment := @Build_State environment tt [].

End Tour.

(** * The servers that pass a command on

    [src/servers/factorio/main.py] and [src/servers/door/main.py] post a
    request to a backend and make a string of its answer. *)

(** ** What they share *)

Module Rpc.

(** [f"{x}"] for a value read with [os.environ.get] or [os.getenv]: the
    string, or ["None"] when the variable is not set. *)
Definition format_opt (o : option str) : str :=
  match o with
  | Some s => s
  | None => lit "None"
  end.

(** The double quote of the source's literals. *)
Definition quote : str := [34%N].

Section Session.

(** The backend, and what is posted to it. *)
Context {Remote Post : Type}.

(** The state a tool runs in: the backend, and the requests posted so far,
    oldest first. *)
Record Session := {
  remote : Remote;
  posted : list Post
}.

Definition IO (A : Type) : Type := Session -> outcome A * Session.

Definition io_ret {A} (a : A) : IO A := fun ses => (Return a, ses).
Definition io_bind {A B} (m : IO A) (f : A -> IO B) : IO B := fun ses =>
  match m ses with
  | (Return a, ses') => f a ses'
  | (Raise e, ses') => (Raise e, ses')
  end.

(** A call that changes nothing, as the subscript of a value. *)
Definition io_call {A} (r : outcome A) : IO A := fun ses => (r, ses).

(** A post: the backend answers or the call raises; the request is on
    record either way. *)
Definition io_post {R} (send : Post -> Remote -> outcome R * Remote) (req : Post)
  : IO R :=
  fun ses =>
    let '(r, w) := send req (remote ses) in
    (r, {| remote := w; posted := posted ses ++ [req] |}).

End Session.

Arguments Session : clear implicits.
Arguments IO : clear implicits.

End Rpc.

(** ** The Factorio server *)

Module Factorio.

Import Rpc.

(** [str.isspace] for one character: the white space of Unicode. *)
Definition isspace (c : char) : bool :=
  ((9 <=? c) && (c <=? 13) || (28 <=? c) && (c <=? 32) ||
   (c =? 133) || (c =? 160) || (c =? 5760) ||
   (8192 <=? c) && (c <=? 8202) ||
   (c =? 8232) || (c =? 8233) || (c =? 8239) || (c =? 8287) ||
   (c =? 12288))%N.

(** [s.lstrip()] *)
Fixpoint lstrip (s : str) : str :=
  match s with
  | [] => []
  | c :: s' => if isspace c then lstrip s' else s
  end.

(** [s.rstrip()] *)
Fixpoint rstrip (s : str) : str :=
  match s with
  | [] => []
  | c :: s' =>
      match rstrip s' with
      | [] => if isspace c then [] else [c]
      | r => c :: r
      end
  end.

(** [s.strip()] *)
Definition strip (s : str) : str := rstrip (lstrip s).

(** [s.startswith(p)] *)
Definition startswith (s p : str) : bool :=
  bool_decide (take (length p) s = p).

(** [s[lo:]] *)
Definition slice_from {A} (s : list A) (lo : Z) : list A := slice s lo (len s).

(** What [response.json()] gives and a tool may return: a value of JSON; a
    number is kept as it is written, an object as the members of its
    [dict], each key once. *)
#[local] Unset Elimination Schemes.
Inductive value :=
| JNull
| JBool (b : bool)
| JNumber (repr : str)
| JString (s : str)
| JArray (items : list value)
| JObject (members : list (str * value)).
#[local] Set Elimination Schemes.

Definition KeyError (key : str) : exn :=
  OtherException (lit "KeyError: " ++ key).
Definition TypeError (msg : str) : exn :=
  OtherException (lit "TypeError: " ++ msg).

(** [d[key]] for the members of a [dict]. *)
Fixpoint lookup_member (members : list (str * value)) (key : str)
  : option value :=
  match members with
  | [] => None
  | (k, v) :: members' =>
      if bool_decide (k = key) then Some v else lookup_member members' key
  end.

(** [data[key]] for a key that is a string: the member of a [dict], a
    [KeyError] when there is none, a [TypeError] for every other value. *)
Definition getitem (data : value) (key : str) : outcome value :=
  match data with
  | JObject members =>
      match lookup_member members key with
      | Some v => Return v
      | None => Raise (KeyError key)
      end
  | _ => Raise (TypeError (lit "the value has no string keys"))
  end.

(** The answer of [httpx.post]; [json] is what [response.json()] returns or
    raises. *)
Record HttpxResponse := {
  status_code : Z;
  text : str;
  json : outcome value
}.

(** What [httpx.post(url, headers=..., json=...)] sends. *)
Record Post := {
  post_url : str;
  post_headers : list (str * str);
  post_json : value
}.

(** The backend and the two variables of the environment the module reads
    when it is loaded. *)
Class Server := {
  Remote : Type;
  httpx_post : Post -> Remote -> outcome HttpxResponse * Remote;
  BACKEND_URL : option str;
  API_KEY : option str
}.

Section Tools.

Context {server : Server}.

Local Notation "x ← m ; k" := (io_bind m (fun x => k))
  (at level 20, m at level 100, k at level 200, only parsing).

Definition execute_command (command : str) : IO Remote Post value :=
  match API_KEY with
  | None => io_ret (JString (lit "Error: API_KEY environment variable not set"))
  | Some key =>
      if negb (truthy key) then
        io_ret (JString (lit "Error: API_KEY environment variable not set"))
      else
        response ← io_post httpx_post
          {| post_url := format_opt BACKEND_URL ++ lit "/execute_command";
             post_headers := [(lit "X-API-Key", key)];
             post_json := JObject [(lit "command", JString command)] |};
        if negb (status_code response =? 200) then
          io_ret (JString (lit "Error: " ++ str_of_int (status_code response) ++
                           lit " - " ++ text response))
        else
          data ← io_call (json response);
          io_call (getitem data (lit "result"))
  end.

Definition get_player_count : IO Remote Post value :=
  execute_command (lit "/players online").

Definition send_message (message : str) : IO Remote Post value :=
  execute_command
    (lit "/sc game.print(" ++ quote ++ lit "[MCP] " ++ message ++ quote ++
     lit ")").

Definition run_lua (code : str) (explanation : option str)
  : IO Remote Post value :=
  let code := strip code in
  let code :=
    if startswith code (lit "/sc") then strip (slice_from code 3) else code in
  _ ← match explanation with
      | None => io_ret tt
      | Some why =>
          if truthy why then
            _ ← send_message (lit "Action: " ++ why); io_ret tt
          else io_ret tt
      end;
  execute_command (lit "/sc " ++ code).

Definition give_items (player item : str) (count : Z) : IO Remote Post value :=
  run_lua
    (lit "game.players[" ++ quote ++ player ++ quote ++ lit "].insert{name=" ++
     quote ++ item ++ quote ++ lit ", count=" ++ str_of_int count ++ lit "}")
    (Some (lit "Giving " ++ str_of_int count ++ lit "x " ++ item ++
           lit " to " ++ player)).

End Tools.

(** The request [execute_command] posts for a command. *)
Definition command_post `{Server} (key command : str) : Post :=
  {| post_url := format_opt BACKEND_URL ++ lit "/execute_command";
     post_headers := [(lit "X-API-Key", key)];
     post_json := JObject [(lit "command", JString command)] |}.

(** The code [run_lua] runs for the code it is given. *)
Definition cleaned (code : str) : str :=
  if startswith (strip code) (lit "/sc")
  then strip (slice_from (strip code) 3) else strip code.

(** What [execute_command] returns without an API key. *)
Definition no_key_error : value :=
  JString (lit "Error: API_KEY environment variable not set").

(** What [execute_command] makes of an answer. *)
Definition result_of (response : HttpxResponse) : outcome value :=
  if negb (status_code response =? 200) then
    Return (JString (lit "Error: " ++ str_of_int (status_code response) ++
                     lit " - " ++ text response))
  else
    match json response with
    | Return data => getitem data (lit "result")
    | Raise e => Raise e
    end.

(** The command a request carries, when it is one of [execute_command]. *)
Definition command_of (req : Post) : option str :=
  match post_json req with
  | JObject [(_, JString command)] => Some command
  | _ => None
  end.

(** A backend to run the tools against: it answers the command
    [/players online] with a result, a command that begins with
    [/sc game.print] with the status 500, and every other command with an
    answer that has no result. *)
Module Demo.

Definition answer (req : Post) (w : unit) : outcome HttpxResponse * unit :=
  match command_of req with
  | Some command =>
      if bool_decide (command = lit "/players online") then
        (Return {| status_code := 200; text := lit "{}";
                   json := Return (JObject [(lit "result",
                                             JString (lit "Online players (0):"))]) |},
         w)
      else if startswith command (lit "/sc game.print") then
        (Return {| status_code := 500; text := lit "rcon down";
                   json := Raise (ValueError (lit "Expecting value")) |}, w)
      else
        (Return {| status_code := 200; text := lit "{}";
                   json := Return (JObject []) |}, w)
  | None => (Raise (ConnectionError (lit "Connection refused")), w)
  end.

Definition server : Server :=
  {| Remote := unit;
     httpx_post := answer;
     BACKEND_URL := Some (lit "http://backend:8000");
     API_KEY := Some (lit "secret") |}.

(** A backend whose answers have the status 200 and no result. *)
Definition answer_empty (req : Post) (w : unit) : outcome HttpxResponse * unit :=
  (Return {| status_code := 200; text := lit "{}";
             json := Return (JObject []) |}, w).

Definition silent : Server :=
  {| Remote := unit;
     httpx_post := answer_empty;
     BACKEND_URL := Some (lit "http://backend:8000");
     API_KEY := Some (lit "secret") |}.

(** The same backend, for a process without an API key. *)
Definition keyless : Server :=
  {| Remote := unit;
     httpx_post := answer;
     BACKEND_URL := Some (lit "http://backend:8000");
     API_KEY := None |}.

Definition start (s : Server) (w : @Remote s) : Session (@Remote s) Post :=
  {| remote := w; posted := [] |}.

End Demo.

End Factorio.

(** ** The door server *)

Module Door.

Import Rpc.

(** What [requests.post(url, headers=...)] sends; the value of a header is
    [None] when the variable it comes from is not set. *)
Record Post := {
  post_url : str;
  post_headers : list (str * option str)
}.

Class Home := {
  Remote : Type;
  requests_post : Post -> Remote -> outcome Response * Remote;
  DOOR_API_KEY : option str;
  DOOR_URL : option str
}.

Section Tools.

Context {home : Home}.

Definition headers : list (str * option str) :=
  [(lit "x-api-key", DOOR_API_KEY)].

Definition lock_door : IO Remote Post str :=
  io_bind
    (io_post requests_post
       {| post_url := format_opt DOOR_URL ++ lit "/api/lock";
          post_headers := headers |})
    (fun response =>
       io_ret (lit "Door locked with status " ++
               str_of_int (status_code response))).

Definition unlock_door : IO Remote Post str :=
  io_bind
    (io_post requests_post
       {| post_url := format_opt DOOR_URL ++ lit "/api/unlock";
          post_headers := headers |})
    (fun response =>
       io_ret (lit "Door unlocked with status " ++
               str_of_int (status_code response))).

End Tools.

(** A door that refuses the key: every request is answered with 401. *)
Module Demo.

Definition refuse (req : Post) (w : unit) : outcome Response * unit :=
  (Return (Build_Response 401 (lit "Unauthorized") (post_url req) ∅
             (lit "bad key")), w).

Definition home : Home :=
  {| Remote := unit;
     requests_post := refuse;
     DOOR_API_KEY := None;
     DOOR_URL := Some (lit "http://door.local") |}.

Definition start : Session unit Post := {| remote := tt; posted := [] |}.

End Demo.

End Door.

(** * Properties *)

(** ** Slices *)

Section SliceFacts.

Context {A : Type}.
Implicit Types s : list A.

(** A slice with both bounds inside the sequence. *)
Lemma slice_inside s lo k :
  0 <= lo <= len s -> 0 <= k ->
  slice s lo (lo + k) = take (Z.to_nat k) (drop (Z.to_nat lo) s).
Proof.
  intros Hlo Hk. unfold slice, adjust_index.
  destruct (Z.ltb_spec lo 0); [lia|].
  destruct (Z.ltb_spec (lo + k) 0); [lia|].
  rewrite (Z.min_l lo) by lia.
  destruct (Z.le_gt_cases (lo + k) (len s)) as [Hin|Hout].
  - rewrite Z.min_l by lia. f_equal. lia.
  - rewrite Z.min_r by lia.
    rewrite !take_ge; [done| |]; rewrite length_drop; unfold len in *; lia.
Qed.

Lemma len_take_drop s lo k :
  0 <= lo <= len s -> 0 <= k ->
  len (take (Z.to_nat k) (drop (Z.to_nat lo) s)) = Z.min k (len s - lo).
Proof.
  intros Hlo Hk. unfold len in *. rewrite length_take, length_drop. lia.
Qed.

End SliceFacts.

(** ** Header text *)

Section Latin1Facts.

Import Latin1.

Lemma prefix_app (p s : string) :
  String.prefix p s = true <-> exists t, s = p +:+ t.
Proof.
  revert s. induction p as [|c p IH]; intros s; simpl.
  - split; [intros _; by exists s | by destruct s].
  - destruct s as [|d s].
    + split; [done | intros [t Ht]; discriminate].
    + simpl. destruct (Ascii.ascii_dec c d) as [->|Hne].
      * rewrite IH. split; intros [t Ht]; exists t.
        -- by rewrite Ht.
        -- by injection Ht.
      * split; [done | intros [t Ht]; inversion Ht; congruence].
Qed.

Lemma contains_eq (needle hay : string) :
  contains needle hay =
  String.prefix needle hay ||
  match hay with
  | EmptyString => false
  | String _ hay' => contains needle hay'
  end.
Proof. by destruct hay. Qed.

Lemma contains_occurs (needle hay : string) :
  contains needle hay = true <-> occurs_in needle hay.
Proof.
  unfold occurs_in. split.
  - induction hay as [|c hay IH]; rewrite contains_eq; intros H.
    + rewrite orb_false_r in H. apply prefix_app in H as [t Ht].
      by exists EmptyString, t.
    + apply orb_true_iff in H as [H|H].
      * apply prefix_app in H as [t Ht]. by exists EmptyString, t.
      * destruct (IH H) as (b & a & ->). by exists (String c b), a.
  - intros (b & a & ->). induction b as [|c b IH]; rewrite contains_eq.
    + apply orb_true_iff. left. apply prefix_app. by exists a.
    + apply orb_true_iff. right. exact IH.
Qed.

Lemma lower_app (a b : string) : lower (a +:+ b) = lower a +:+ lower b.
Proof. induction a as [|c a IH]; simpl; [done | by rewrite IH]. Qed.

Lemma lower_app_inv (v x y : string) :
  lower v = x +:+ y -> exists a b, v = a +:+ b /\ lower a = x /\ lower b = y.
Proof.
  revert v. induction x as [|c x IH]; intros v H; simpl in H.
  - by exists EmptyString, v.
  - destruct v as [|d v]; simpl in H; [discriminate|].
    injection H as Hc Hv. destruct (IH _ Hv) as (a & b & -> & Ha & Hb).
    exists (String d a), b. simpl. by rewrite Hc, Ha.
Qed.

(** Searching the lower-cased value is searching the value with the case of
    letters ignored. *)
Lemma contains_lower (needle value : string) :
  contains needle (lower value) = true <-> contains_ignoring_case needle value.
Proof.
  rewrite contains_occurs. unfold contains_ignoring_case, occurs_in. split.
  - intros (b & a & H).
    apply lower_app_inv in H as (b' & r & -> & _ & Hr).
    apply lower_app_inv in Hr as (mid & a' & -> & Hmid & _).
    exists mid. split; [by exists b', a' | done].
  - intros (mid & (b & a & ->) & <-).
    exists (lower b), (lower a). by rewrite !lower_app.
Qed.

(** Lower-casing a character gives a small ASCII character [d] exactly for
    [d] itself and for its capital. *)
Lemma lower_char_variant (c d : ascii) :
  (N_of_ascii d < 128)%N -> ~ (65 <= N_of_ascii d <= 90)%N ->
  lower_char c = d <-> letter_variant c d.
Proof.
  intros Hd Hup. unfold lower_char, letter_variant.
  pose proof (N_ascii_bounded c) as Hc.
  assert (forall x y : ascii, N_of_ascii x = N_of_ascii y -> x = y) as Hinj.
  { intros x y Hxy. rewrite <- (ascii_N_embedding x), <- (ascii_N_embedding y).
    by rewrite Hxy. }
  destruct (N.leb_spec 65 (N_of_ascii c)), (N.leb_spec (N_of_ascii c) 90),
    (N.leb_spec 192 (N_of_ascii c)), (N.leb_spec (N_of_ascii c) 222),
    (N.eqb_spec (N_of_ascii c) 215);
    cbn [andb orb negb]; (split; [intros Hl | intros [Hv|[Hr Hv]]]);
    try assumption;
    try (subst d; lia);
    try (by left);
    try lia;
    try (apply (f_equal N_of_ascii) in Hl;
         rewrite N_ascii_embedding in Hl by lia; first [lia | right; lia]);
    try (apply Hinj; rewrite N_ascii_embedding by lia; lia).
Qed.

Lemma lower_variant (mid needle : string) :
  plain needle -> lower mid = needle <-> case_variant mid needle.
Proof.
  revert needle. induction mid as [|c mid IH]; intros [|d needle]; simpl;
    try (split; [done | by intros []]); try done.
  intros [[Hd Hup] Hp]. rewrite <- (IH needle Hp).
  rewrite <- (lower_char_variant c d Hd Hup).
  split; [by intros [= -> ->] | by intros [-> ->]].
Qed.

(** Searching the lower-cased value for a plain text is searching the value
    for this text in any case of its letters. *)
Lemma contains_lower_variant (needle value : string) :
  plain needle ->
  contains needle (lower value) = true <-> contains_variant_of needle value.
Proof.
  intros Hp. rewrite contains_lower.
  unfold contains_ignoring_case, contains_variant_of, occurs_in. split.
  - intros (mid & (b & a & ->) & Hm). exists b, mid, a.
    split; [done|]. by apply lower_variant.
  - intros (b & mid & a & -> & Hm). exists mid.
    split; [by exists b, a|]. by apply lower_variant.
Qed.

Lemma plain_text_html : plain "text/html".
Proof. simpl. repeat split; lia. Qed.

Lemma plain_content_type : plain "content-type".
Proof. simpl. repeat split; lia. Qed.

End Latin1Facts.

(** ** Runs of the program *)

Section Runs.

Context `{Environment}.

Ltac run := unfold mbind, mret, M_bind, M_ret, outcome_bind, outcome_ret,
  call, raise, try_except, requests_get in *; simpl in *.

(** The robots check sends its one request and returns, whatever the answer:
    the handler of [except Exception] takes every exception raised in the
    [try] block, the refusal included. *)
Lemma check_run url user_agent st robots_txt_url :
  get_robots_txt_url url = Return robots_txt_url ->
  check_may_autonomously_fetch_url url user_agent st =
    (Return tt, after_robots_check st robots_txt_url).
Proof.
  intros Hr. unfold check_may_autonomously_fetch_url, after_robots_check.
  run. rewrite Hr.
  fold (robots_request robots_txt_url).
  destruct (network _ (world st)) as [[response|e] w]; simpl; [|done].
  destruct (Protego_parse (text response)) as [rp|e]; [|done].
  destruct (can_fetch rp user_agent url) as [[|]|e]; done.
Qed.

(** It raises only when the URL of the robots document cannot be made. *)
Lemma check_raise url user_agent st e :
  get_robots_txt_url url = Raise e ->
  check_may_autonomously_fetch_url url user_agent st = (Raise e, st).
Proof.
  intros Hr. unfold check_may_autonomously_fetch_url. run. by rewrite Hr.
Qed.

Lemma fetch_url_run url user_agent force_raw st r w :
  network (target_request url user_agent) (world st) = (r, w) ->
  fetch_url url user_agent force_raw st =
    (response ← r; content_of response force_raw,
     {| world := w; sent := sent st ++ [target_request url user_agent] |}).
Proof.
  intros Hn. unfold fetch_url, content_of. run.
  fold (target_request url user_agent). rewrite Hn.
  destruct r as [response|e]; [|done].
  destruct (raise_for_status response); [|done].
  by destruct (negb force_raw && _).
Qed.

(** A whole run of [fetch], from the answers of the network. *)
Lemma fetch_run url max_length start_index raw st robots_txt_url r1 w1 r2 w2 :
  get_robots_txt_url url = Return robots_txt_url ->
  network (robots_request robots_txt_url) (world st) = (r1, w1) ->
  network (target_request url DEFAULT_USER_AGENT_AUTONOMOUS) w1 = (r2, w2) ->
  fetch url max_length start_index raw st =
    (content ← (response ← r2; content_of response raw);
     Return (paginate content start_index max_length),
     {| world := w2;
        sent := sent st ++ [robots_request robots_txt_url;
                            target_request url DEFAULT_USER_AGENT_AUTONOMOUS] |}).
Proof.
  intros Hr H1 H2. unfold fetch.
  unfold mbind at 1. unfold M_bind.
  rewrite (check_run _ _ _ _ Hr). unfold after_robots_check. rewrite H1. simpl.
  unfold mbind at 1. unfold M_bind.
  erewrite fetch_url_run by exact H2. simpl.
  rewrite <- app_assoc. simpl.
  by destruct (_ ≫= _).
Qed.

Lemma fetch_raise url max_length start_index raw st e :
  get_robots_txt_url url = Raise e ->
  fetch url max_length start_index raw st = (Raise e, st).
Proof.
  intros Hr. unfold fetch. unfold mbind at 1. unfold M_bind.
  by rewrite (check_raise _ _ _ _ Hr).
Qed.

(** Past the robots check, [fetch] goes on as if there were none. *)
Lemma fetch_goes_on url max_length start_index raw st robots_txt_url :
  get_robots_txt_url url = Return robots_txt_url ->
  fetch url max_length start_index raw st =
    fetch_unchecked url max_length start_index raw
      (after_robots_check st robots_txt_url).
Proof.
  intros Hr. unfold fetch, fetch_unchecked.
  unfold mbind at 1. unfold M_bind. by rewrite (check_run _ _ _ _ Hr).
Qed.

Lemma fetch_sends url max_length start_index raw st robots_txt_url :
  get_robots_txt_url url = Return robots_txt_url ->
  sent (fetch url max_length start_index raw st).2 =
    sent st ++ [robots_request robots_txt_url;
                target_request url DEFAULT_USER_AGENT_AUTONOMOUS].
Proof.
  intros Hr.
  destruct (network (robots_request robots_txt_url) (world st))
    as [r1 w1] eqn:H1.
  destruct (network (target_request url DEFAULT_USER_AGENT_AUTONOMOUS) w1)
    as [r2 w2] eqn:H2.
  by rewrite (fetch_run _ _ _ _ _ _ _ _ _ _ Hr H1 H2).
Qed.

End Runs.


(** ** The pagination window *)

Lemma paginate_inside_eq (content : str) (start_index max_length : Z) :
  0 <= start_index < len content -> 0 < max_length ->
  paginate content start_index max_length =
    take (Z.to_nat max_length) (drop (Z.to_nat start_index) content).
Proof.
  intros Hs Hm. unfold paginate.
  destruct (Z.geb_spec start_index (len content)); [lia|].
  apply slice_inside; lia.
Qed.

Lemma paginate_len_le (content : str) (start_index max_length : Z) :
  0 < max_length -> 0 <= start_index ->
  len (paginate content start_index max_length) <= max_length.
Proof.
  intros Hm Hs.
  destruct (Z.lt_ge_cases start_index (len content)) as [Hin|Hout].
  - rewrite paginate_inside_eq, len_take_drop by lia. lia.
  - unfold paginate. destruct (Z.geb_spec start_index (len content)); [|lia].
    unfold len. simpl. lia.
Qed.

(** C2, as the code has it: the window of ten characters from offset 3 of
    ["0123456789ABCDEF"] is ["3456789ABC"], and [fetch] returns it for a page
    with this text. *)
Theorem window_of_ten_from_three :
  paginate (lit "0123456789ABCDEF") 3 10 = lit "3456789ABC" /\
  (@fetch Demo.environment (lit "https://example.com/digits") 10 3 false
     Demo.start).1 = Return (lit "3456789ABC").
Proof. split; by vm_compute. Qed.

(** C2, as stated, does not hold: the window is not the nine characters
    ["3456789AB"]; it has ten. *)
Lemma window_of_ten_is_not_nine :
  paginate (lit "0123456789ABCDEF") 3 10 <> lit "3456789AB" /\
  len (paginate (lit "0123456789ABCDEF") 3 10) = 10.
Proof. split; [by vm_compute | done]. Qed.

(** C4: for an offset inside the text and a positive length, the window is
    the part of the text that begins at the offset and has
    [min(max_length, len(text) - start_index)] characters. *)
Theorem paginate_inside (content : str) (start_index max_length : Z) :
  0 <= start_index < len content -> 0 < max_length ->
  exists before after,
    content = before ++ paginate content start_index max_length ++ after /\
    len before = start_index /\
    len (paginate content start_index max_length) =
      Z.min max_length (len content - start_index).
Proof.
  intros Hs Hm. rewrite paginate_inside_eq by done.
  exists (take (Z.to_nat start_index) content),
         (drop (Z.to_nat max_length) (drop (Z.to_nat start_index) content)).
  split; [|split].
  - by rewrite !take_drop.
  - unfold len in *. rewrite length_take. lia.
  - apply len_take_drop; lia.
Qed.

Lemma paginate_inside_witness :
  exists before after,
    lit "0123456789ABCDEF" =
      before ++ paginate (lit "0123456789ABCDEF") 3 10 ++ after /\
    len before = 3 /\
    len (paginate (lit "0123456789ABCDEF") 3 10) =
      Z.min 10 (len (lit "0123456789ABCDEF") - 3).
Proof.
  apply (paginate_inside (lit "0123456789ABCDEF") 3 10);
    [vm_compute; split; [discriminate | reflexivity] | lia].
Defined.

(** C5: for an offset at or past the end of the text, the window is the
    empty string, and [fetch] returns it as its result: the step after
    [fetch_url] raises nothing. *)
Theorem paginate_past_end `{Environment} (content : str)
    (start_index max_length : Z) :
  start_index >= len content ->
  paginate content start_index max_length = [] /\
  forall url raw st st',
    fetch_url url DEFAULT_USER_AGENT_AUTONOMOUS raw st = (Return content, st') ->
    fetch_unchecked url max_length start_index raw st = (Return [], st').
Proof.
  intros Hs.
  assert (paginate content start_index max_length = []) as Hp.
  { unfold paginate.
    by destruct (Z.geb_spec start_index (len content)); [|lia]. }
  split; [done|]. intros url raw st st' Hf.
  unfold fetch_unchecked. unfold mbind at 1. unfold M_bind.
  rewrite Hf. unfold mret, M_ret. by rewrite Hp.
Qed.

Lemma paginate_past_end_witness :
  paginate (lit "0123456789ABCDEF") 16 10 = [] /\
  forall url raw st st',
    @fetch_url Demo.environment url DEFAULT_USER_AGENT_AUTONOMOUS raw st =
      (Return (lit "0123456789ABCDEF"), st') ->
    fetch_unchecked url 10 16 raw st = (Return [], st').
Proof.
  apply (@paginate_past_end Demo.environment (lit "0123456789ABCDEF") 16 10).
  vm_compute. discriminate.
Defined.

(** C10: a string that [fetch] returns for a positive [max_length] and a
    [start_index] that is not negative has at most [max_length]
    characters. *)
Theorem fetch_length_bound `{Environment} (url : str)
    (max_length start_index : Z) (raw : bool) (st st' : State) (s : str) :
  fetch url max_length start_index raw st = (Return s, st') ->
  0 < max_length -> 0 <= start_index ->
  len s <= max_length.
Proof.
  intros Hf Hm Hs.
  destruct (get_robots_txt_url url) as [robots_txt_url|e] eqn:Hr.
  - destruct (network (robots_request robots_txt_url) (world st))
      as [r1 w1] eqn:H1.
    destruct (network (target_request url DEFAULT_USER_AGENT_AUTONOMOUS) w1)
      as [r2 w2] eqn:H2.
    rewrite (fetch_run _ _ _ _ _ _ _ _ _ _ Hr H1 H2) in Hf.
    destruct (response ← r2; content_of response raw) as [content|e];
      simpl in Hf; [|discriminate].
    injection Hf as <- _. by apply paginate_len_le.
  - by rewrite (fetch_raise _ _ _ _ _ _ Hr) in Hf.
Qed.

Lemma fetch_length_bound_witness : len (lit "3456789ABC") <= 10.
Proof.
  apply (@fetch_length_bound Demo.environment
           (lit "https://example.com/digits") 10 3 false Demo.start
           (@fetch Demo.environment (lit "https://example.com/digits")
              10 3 false Demo.start).2);
    [by vm_compute | lia | lia].
Defined.

(** ** The robots gate *)

(** C3: when the robots document cannot be retrieved or parsed (the request
    fails, the status is not 200, the parser refuses the text), the check
    returns without an error, and [fetch] goes on to request the target. *)
Theorem robots_fail_open `{Environment} (url : str)
    (max_length start_index : Z) (raw : bool) (st : State)
    (robots_txt_url : str) :
  get_robots_txt_url url = Return robots_txt_url ->
  robots_undeterminable (world st) robots_txt_url ->
  check_may_autonomously_fetch_url url DEFAULT_USER_AGENT_AUTONOMOUS st =
    (Return tt, after_robots_check st robots_txt_url) /\
  fetch url max_length start_index raw st =
    fetch_unchecked url max_length start_index raw
      (after_robots_check st robots_txt_url) /\
  sent (fetch url max_length start_index raw st).2 =
    sent st ++ [robots_request robots_txt_url;
                target_request url DEFAULT_USER_AGENT_AUTONOMOUS].
Proof.
  intros Hr _. split; [|split].
  - by apply check_run.
  - by apply fetch_goes_on.
  - by apply fetch_sends.
Qed.

Lemma robots_fail_open_witness :
  @check_may_autonomously_fetch_url Demo.environment
     (lit "https://quiet.example/page") DEFAULT_USER_AGENT_AUTONOMOUS
     Demo.start =
    (Return tt,
     after_robots_check Demo.start (lit "https://quiet.example/robots.txt")) /\
  fetch (lit "https://quiet.example/page") 5000 0 false Demo.start =
    fetch_unchecked (lit "https://quiet.example/page") 5000 0 false
      (after_robots_check Demo.start (lit "https://quiet.example/robots.txt")) /\
  sent (@fetch Demo.environment (lit "https://quiet.example/page") 5000 0
          false Demo.start).2 =
    sent Demo.start ++
      [robots_request (lit "https://quiet.example/robots.txt");
       target_request (lit "https://quiet.example/page")
         DEFAULT_USER_AGENT_AUTONOMOUS].
Proof.
  apply (@robots_fail_open Demo.environment (lit "https://quiet.example/page")
           5000 0 false Demo.start (lit "https://quiet.example/robots.txt")).
  - by vm_compute.
  - apply (@robots_network_error Demo.environment _ _
             (ConnectionError (lit "Connection refused")) tt).
    by vm_compute.
Defined.

(** C1, on the code: a robots document that refuses the URL to the user
    agent does not stop [fetch]. Whatever [can_fetch] answers, the
    [ValueError] of the check is raised inside its own [try] block and taken
    by [except Exception]; the check returns, and the target is requested as
    if it were allowed. *)
Theorem refusal_is_swallowed `{Environment} (url : str)
    (max_length start_index : Z) (raw : bool) (st : State)
    (robots_txt_url : str) (response : Response) (w1 : World) (rp : Protego) :
  get_robots_txt_url url = Return robots_txt_url ->
  network (robots_request robots_txt_url) (world st) = (Return response, w1) ->
  Protego_parse (text response) = Return rp ->
  can_fetch rp url DEFAULT_USER_AGENT_AUTONOMOUS = Return false ->
  check_may_autonomously_fetch_url url DEFAULT_USER_AGENT_AUTONOMOUS st =
    (Return tt, after_robots_check st robots_txt_url) /\
  fetch url max_length start_index raw st =
    fetch_unchecked url max_length start_index raw
      (after_robots_check st robots_txt_url) /\
  sent (fetch url max_length start_index raw st).2 =
    sent st ++ [robots_request robots_txt_url;
                target_request url DEFAULT_USER_AGENT_AUTONOMOUS].
Proof.
  intros Hr _ _ _. split; [|split].
  - by apply check_run.
  - by apply fetch_goes_on.
  - by apply fetch_sends.
Qed.

Lemma refusal_is_swallowed_witness :
  @check_may_autonomously_fetch_url Demo.environment
     (lit "https://example.com/private") DEFAULT_USER_AGENT_AUTONOMOUS
     Demo.start =
    (Return tt,
     after_robots_check Demo.start (lit "https://example.com/robots.txt")) /\
  fetch (lit "https://example.com/private") 5000 0 false Demo.start =
    fetch_unchecked (lit "https://example.com/private") 5000 0 false
      (after_robots_check Demo.start (lit "https://example.com/robots.txt")) /\
  sent (@fetch Demo.environment (lit "https://example.com/private") 5000 0
          false Demo.start).2 =
    sent Demo.start ++
      [robots_request (lit "https://example.com/robots.txt");
       target_request (lit "https://example.com/private")
         DEFAULT_USER_AGENT_AUTONOMOUS].
Proof.
  apply (@refusal_is_swallowed Demo.environment
           (lit "https://example.com/private") 5000 0 false Demo.start
           (lit "https://example.com/robots.txt")
           (Demo.page 200 "OK" "https://example.com/robots.txt" "text/plain"
              Demo.robots_txt)
           tt Demo.robots_txt);
    by vm_compute.
Defined.

(** ** Status codes *)

Lemma raise_for_status_error (response : Response) :
  400 <= status_code response < 600 ->
  exists kind,
    (kind = lit " Client Error: " \/ kind = lit " Server Error: ") /\
    raise_for_status response =
      Raise (HTTPError
               (str_of_int (status_code response) ++ kind ++
                reason response ++ lit " for url: " ++ response_url response)
               response).
Proof.
  intros Hs. unfold raise_for_status.
  destruct (Z.lt_ge_cases (status_code response) 500) as [Hc|Hc].
  - exists (lit " Client Error: "). split; [by left|].
    destruct (Z.leb_spec 400 (status_code response)); [|lia].
    destruct (Z.ltb_spec (status_code response) 500); [|lia].
    simpl andb. cbv iota.
    by destruct (str_of_int (status_code response)).
  - exists (lit " Server Error: "). split; [by right|].
    destruct (Z.ltb_spec (status_code response) 500); [lia|].
    destruct (Z.leb_spec 500 (status_code response)); [|lia].
    destruct (Z.ltb_spec (status_code response) 600); [|lia].
    rewrite andb_false_r. simpl andb. cbv iota.
    by destruct (str_of_int (status_code response)).
Qed.

Lemma raise_for_status_ok (response : Response) :
  ~ 400 <= status_code response < 600 ->
  raise_for_status response = Return tt.
Proof.
  intros Hs. unfold raise_for_status.
  destruct (Z.leb_spec 400 (status_code response));
    destruct (Z.ltb_spec (status_code response) 500);
    destruct (Z.leb_spec 500 (status_code response));
    destruct (Z.ltb_spec (status_code response) 600);
    simpl; try done; lia.
Qed.

(** C6, as the code has it: when the target answers with a status from 400
    to 599, [fetch] raises the [HTTPError] of [raise_for_status]. Its
    message is made of the status code, the reason and the URL; it holds the
    response itself, so the status code and the whole body, not a shortened
    copy. For any other status no error comes from the status: the text of
    the response goes on to the content-type branch and the window. *)
Theorem http_error_holds_response `{Environment} (url : str)
    (max_length start_index : Z) (raw : bool) (st : State)
    (robots_txt_url : str) (r1 : outcome Response) (w1 : World)
    (response : Response) (w2 : World) :
  get_robots_txt_url url = Return robots_txt_url ->
  network (robots_request robots_txt_url) (world st) = (r1, w1) ->
  network (target_request url DEFAULT_USER_AGENT_AUTONOMOUS) w1 =
    (Return response, w2) ->
  let st' :=
    {| world := w2;
       sent := sent st ++ [robots_request robots_txt_url;
                           target_request url DEFAULT_USER_AGENT_AUTONOMOUS] |} in
  (400 <= status_code response < 600 ->
   exists kind,
     (kind = lit " Client Error: " \/ kind = lit " Server Error: ") /\
     fetch url max_length start_index raw st =
       (Raise (HTTPError
                 (str_of_int (status_code response) ++ kind ++
                  reason response ++ lit " for url: " ++ response_url response)
                 response),
        st')) /\
  (~ 400 <= status_code response < 600 ->
   fetch url max_length start_index raw st =
     (content ← match classify response with
                 | Html => if raw then Return (text response)
                           else extract_content_from_html (text response)
                 | Other => Return (text response)
                 end;
      Return (paginate content start_index max_length),
      st')).
Proof.
  intros Hr H1 H2 st'. subst st'.
  rewrite (fetch_run _ _ _ _ _ _ _ _ _ _ Hr H1 H2).
  unfold content_of, classify, mbind, outcome_bind.
  split; intros Hs.
  - destruct (raise_for_status_error response Hs) as (kind & Hk & He).
    exists kind. split; [done|]. by rewrite He.
  - rewrite (raise_for_status_ok response Hs).
    by destruct raw, (Latin1.contains _ _).
Qed.

Lemma http_error_holds_response_witness :
  let response :=
    Demo.page 404 "Not Found" "https://example.com/gone" "text/plain"
      (lit "no such page") in
  let st' :=
    @Build_State Demo.environment tt
      (sent Demo.start ++
         [robots_request (lit "https://example.com/robots.txt");
          target_request (lit "https://example.com/gone")
            DEFAULT_USER_AGENT_AUTONOMOUS]) in
  (400 <= status_code response < 600 ->
   exists kind,
     (kind = lit " Client Error: " \/ kind = lit " Server Error: ") /\
     @fetch Demo.environment (lit "https://example.com/gone") 5000 0 false
       Demo.start =
       (Raise (HTTPError
                 (str_of_int (status_code response) ++ kind ++
                  reason response ++ lit " for url: " ++ response_url response)
                 response),
        st')) /\
  (~ 400 <= status_code response < 600 ->
   @fetch Demo.environment (lit "https://example.com/gone") 5000 0 false
     Demo.start =
     (content ← match classify response with
                 | Html => @extract_content_from_html Demo.environment
                             (text response)
                 | Other => Return (text response)
                 end;
      Return (paginate content 0 5000),
      st')).
Proof.
  apply (@http_error_holds_response Demo.environment
           (lit "https://example.com/gone") 5000 0 false Demo.start
           (lit "https://example.com/robots.txt")
           (Return (Demo.page 200 "OK" "https://example.com/robots.txt"
                      "text/plain" Demo.robots_txt))
           tt
           (Demo.page 404 "Not Found" "https://example.com/gone"
              "text/plain" (lit "no such page"))
           tt);
    by vm_compute.
Defined.

(** C6, as stated, does not hold. A status outside the class 2xx need not
    be an error: the page that answers 300 is returned as text. And the
    error for 404 holds the body of the response as it is. *)
Lemma status_300_is_returned :
  (exists response,
     Demo.serve (target_request (lit "https://example.com/choices")
                   DEFAULT_USER_AGENT_AUTONOMOUS) tt = (Return response, tt) /\
     status_code response = 300 /\
     ~ successful (status_code response)) /\
  (@fetch Demo.environment (lit "https://example.com/choices") 5000 0 false
     Demo.start).1 = Return (lit "pick one") /\
  (@fetch Demo.environment (lit "https://example.com/gone") 5000 0 false
     Demo.start).1 =
    Raise (HTTPError
             (lit "404 Client Error: Not Found for url: https://example.com/gone")
             (Demo.page 404 "Not Found" "https://example.com/gone"
                "text/plain" (lit "no such page"))).
Proof.
  split; [|split]; [|by vm_compute|by vm_compute].
  eexists. split; [by vm_compute|]. split; [done|].
  unfold successful. simpl. lia.
Qed.

(** ** The content-type branch *)

(** The header is found under its name in any case of letters. *)
Lemma content_type_any_case (name value : string) (d : CaseInsensitiveDict) :
  Latin1.lower name = "content-type"%string ->
  cid_get (cid_setitem name value d) "content-type" "" = value.
Proof.
  intros Hn. unfold cid_get, cid_setitem. rewrite Hn.
  change (Latin1.lower "content-type") with "content-type"%string.
  by rewrite lookup_insert_eq.
Qed.

Example html_in_any_case :
  classify (Demo.page 200 "OK" "https://example.com/empty"
              "Text/HTML; charset=utf-8" (lit "<html></html>")) = Html /\
  classify (Demo.page 200 "OK" "https://example.com/data"
              "application/json" (lit "{}")) = Other.
Proof. split; by vm_compute. Qed.

Example variants_of_the_two_texts :
  case_variant "Text/HTML" "text/html" /\
  case_variant "CONTENT-Type" "content-type" /\
  ~ case_variant "text-html" "text/html" /\
  contains_variant_of "text/html" "Text/HTML; charset=utf-8".
Proof.
  assert (case_variant "Text/HTML" "text/html") as Hv.
  { simpl. repeat split; first [by left | right; simpl; lia]. }
  split; [done|]. split; [|split].
  - simpl. repeat split; first [by left | right; simpl; lia].
  - simpl. intros (_ & _ & _ & _ & [Hc|Hc] & _); [discriminate | simpl in Hc; lia].
  - by exists ""%string, "Text/HTML"%string, "; charset=utf-8"%string.
Qed.

(** C7: the response is of class [Html] exactly when it has a content-type
    header whose value contains ["text/html"] in any case of its letters
    ([text/html], [Text/HTML], [TEXT/html], ...), and of class [Other] when
    it has another value or no such header; the header is found under its
    name in any case of its letters ([Content-Type], [CONTENT-TYPE], ...);
    [fetch_url] returns the text of a response of class [Other] as it is,
    whatever the flag [force_raw]. *)
Theorem content_type_branch `{Environment} :
  (forall response,
     classify response = Html <->
     exists name value,
       headers response !! "content-type"%string = Some (name, value) /\
       contains_variant_of "text/html" value) /\
  (forall response name value d,
     headers response = cid_setitem name value d ->
     case_variant name "content-type" ->
     (classify response = Html <-> contains_variant_of "text/html" value)) /\
  (forall response,
     classify response = Other <-> classify response <> Html) /\
  (forall url user_agent force_raw st,
     fetch_url url user_agent force_raw st =
       (response ← (network (target_request url user_agent) (world st)).1;
        raise_for_status response;;
        match classify response with
        | Html => if force_raw then Return (text response)
                  else extract_content_from_html (text response)
        | Other => Return (text response)
        end,
        {| world := (network (target_request url user_agent) (world st)).2;
           sent := sent st ++ [target_request url user_agent] |})).
Proof.
  assert (forall response,
            classify response = Html <->
            exists name value,
              headers response !! "content-type"%string = Some (name, value) /\
              contains_variant_of "text/html" value) as Hvalue.
  { intros response. unfold classify, headers_get, cid_get.
    change (Latin1.lower "content-type") with "content-type"%string.
    destruct (headers response !! "content-type"%string) as [[name value]|].
    - destruct (Latin1.contains "text/html" (Latin1.lower value)) eqn:Hc.
      + split; [|done]. intros _. exists name, value.
        split; [done|]. by apply contains_lower_variant, Hc; apply plain_text_html.
      + split; [done|]. intros (name' & value' & [= <- <-] & Hv).
        apply contains_lower_variant in Hv; [congruence | apply plain_text_html].
    - change (Latin1.contains "text/html" (Latin1.lower "")) with false.
      split; [done|]. by intros (name' & value' & ? & _). }
  split; [done|]. split; [|split].
  - intros response name value d Hd Hname. rewrite Hvalue, Hd.
    unfold cid_setitem.
    apply (lower_variant name "content-type" plain_content_type) in Hname.
    rewrite Hname, lookup_insert_eq. split.
    + by intros (name' & value' & [= <- <-] & Hv).
    + intros Hv. by exists name, value.
  - intros response. by destruct (classify response).
  - intros url user_agent force_raw st.
    destruct (network (target_request url user_agent) (world st))
      as [r w] eqn:Hn.
    rewrite (fetch_url_run _ _ _ _ _ _ Hn). simpl. f_equal.
    destruct r as [response|e]; [|done].
    unfold content_of, classify. unfold mbind, outcome_bind.
    destruct (raise_for_status response); [|done].
    destruct force_raw; simpl;
      by destruct (Latin1.contains _ _).
Qed.

(** ** The simplifier *)



(** ** The address of the robots document *)

Lemma robots_txt_unparse (uses_netloc : list str) (scheme netloc : str) :
  urlunparse uses_netloc (scheme, netloc, lit "/robots.txt", [], [], []) =
    (if truthy scheme then scheme ++ lit ":" else []) ++
    (if truthy netloc ||
        (truthy scheme && bool_decide (scheme ∈ uses_netloc))
     then lit "//" ++ netloc else []) ++
    lit "/robots.txt".
Proof.
  unfold urlunparse, urlunsplit. simpl truthy. cbv iota.
  change (bool_decide (slice_to (lit "/robots.txt") 2 = lit "//")) with false.
  change (bool_decide (slice_to (lit "/robots.txt") 1 = lit "/")) with true.
  rewrite andb_true_r. simpl negb. rewrite andb_false_r.
  destruct netloc as [|c netloc], scheme as [|d scheme]; simpl truthy;
    simpl orb; simpl andb; unfold str_or; simpl truthy; try done.
  - by destruct (bool_decide _); simpl; rewrite <- ?app_assoc.
  - by rewrite <- !app_assoc.
Qed.

Lemma get_robots_txt_url_raise `{Environment} (url : str) (e : exn) :
  urlparse url = Raise e -> get_robots_txt_url url = Raise e.
Proof.
  intros Hp. unfold get_robots_txt_url. unfold mbind, outcome_bind.
  by rewrite Hp.
Qed.

(** C9: the address of the robots document is made of the scheme and the
    host (netloc) of the target and of the one path ["/robots.txt"]; the
    path, parameters, query and fragment of the target have no part in it.
    For a target with a scheme and a host it reads
    [scheme://host/robots.txt], and two such targets of one scheme have the
    same robots address only if they have the same host. *)
Theorem robots_url_keeps_scheme_and_host `{Environment} (url : str)
    (parsed : ParseResult) :
  urlparse url = Return parsed ->
  get_robots_txt_url url =
    Return (urlunparse uses_netloc
              (scheme parsed, netloc parsed, lit "/robots.txt", [], [], [])) /\
  get_robots_txt_url url =
    Return ((if truthy (scheme parsed) then scheme parsed ++ lit ":" else []) ++
            (if truthy (netloc parsed) ||
                (truthy (scheme parsed) &&
                 bool_decide (scheme parsed ∈ uses_netloc))
             then lit "//" ++ netloc parsed else []) ++
            lit "/robots.txt") /\
  (truthy (scheme parsed) = true -> truthy (netloc parsed) = true ->
   get_robots_txt_url url =
     Return (scheme parsed ++ lit "://" ++ netloc parsed ++ lit "/robots.txt") /\
   forall url' parsed',
     urlparse url' = Return parsed' ->
     scheme parsed' = scheme parsed ->
     truthy (netloc parsed') = true ->
     get_robots_txt_url url' = get_robots_txt_url url ->
     netloc parsed' = netloc parsed).
Proof.
  intros Hp.
  assert (forall u p, urlparse u = Return p ->
            get_robots_txt_url u =
              Return (urlunparse uses_netloc
                        (scheme p, netloc p, lit "/robots.txt", [], [], [])))
    as Hdef.
  { intros u p Hu. unfold get_robots_txt_url. unfold mbind, outcome_bind.
    by rewrite Hu. }
  assert (forall u p, urlparse u = Return p ->
            truthy (scheme p) = true -> truthy (netloc p) = true ->
            get_robots_txt_url u =
              Return (scheme p ++ lit "://" ++ netloc p ++ lit "/robots.txt"))
    as Hclosed.
  { intros u p Hu Hsp Hnp.
    rewrite (Hdef _ _ Hu), robots_txt_unparse, Hsp, Hnp.
    simpl orb. cbv iota. by rewrite <- !app_assoc. }
  split; [|split].
  - by apply Hdef.
  - by rewrite (Hdef _ _ Hp), robots_txt_unparse.
  - intros Hs Hn. split; [by apply Hclosed|].
    intros url' parsed' Hp' Hs' Hn' Heq.
    rewrite (Hclosed _ _ Hp Hs Hn) in Heq.
    rewrite (Hclosed _ _ Hp') in Heq by (by rewrite ?Hs').
    injection Heq as Heq. rewrite Hs' in Heq.
    apply app_inv_head in Heq. apply (app_inv_head (lit "://")) in Heq.
    by apply app_inv_tail in Heq.
Qed.

Lemma robots_url_keeps_scheme_and_host_witness :
  let parsed :=
    {| scheme := lit "https"; netloc := lit "example.com";
       path := lit "/private"; params := []; query := lit "page=2";
       fragment := lit "top" |} in
  let url := lit "https://example.com/private?page=2#top" in
  @get_robots_txt_url Demo.environment url =
    Return (urlunparse (@uses_netloc Demo.environment)
              (scheme parsed, netloc parsed, lit "/robots.txt", [], [], [])) /\
  @get_robots_txt_url Demo.environment url =
    Return ((if truthy (scheme parsed) then scheme parsed ++ lit ":" else []) ++
            (if truthy (netloc parsed) ||
                (truthy (scheme parsed) &&
                 bool_decide (scheme parsed ∈ @uses_netloc Demo.environment))
             then lit "//" ++ netloc parsed else []) ++
            lit "/robots.txt") /\
  (truthy (scheme parsed) = true -> truthy (netloc parsed) = true ->
   @get_robots_txt_url Demo.environment url =
     Return (scheme parsed ++ lit "://" ++ netloc parsed ++ lit "/robots.txt") /\
   forall url' parsed',
     @urlparse Demo.environment url' = Return parsed' ->
     scheme parsed' = scheme parsed ->
     truthy (netloc parsed') = true ->
     @get_robots_txt_url Demo.environment url' =
       @get_robots_txt_url Demo.environment url ->
     netloc parsed' = netloc parsed).
Proof.
  apply (@robots_url_keeps_scheme_and_host Demo.environment
           (lit "https://example.com/private?page=2#top")
           {| scheme := lit "https"; netloc := lit "example.com";
              path := lit "/private"; params := []; query := lit "page=2";
              fragment := lit "top" |}).
  by vm_compute.
Defined.

Example robots_url_of_private :
  @get_robots_txt_url Demo.environment
     (lit "https://example.com/private?page=2#top") =
    Return (lit "https://example.com/robots.txt").
Proof. by vm_compute. Qed.

(** * Further properties of the fetch server *)

(** ** What [fetch] sends, and when it fails *)

(** X1: the robots check fails only when [urlparse] rejects the URL, with
    the error of [urlparse] and before any request. For every other URL it
    sends one request, to the robots address and without headers, and
    returns, whatever the network, the parser and [can_fetch] answer. *)
Theorem check_outcome `{Environment} (url user_agent : str) (st : State) :
  check_may_autonomously_fetch_url url user_agent st =
    match urlparse url with
    | Return parsed =>
        let robots_txt_url :=
          urlunparse uses_netloc
            (scheme parsed, netloc parsed, lit "/robots.txt", [], [], []) in
        (Return tt,
         {| world := (network (robots_request robots_txt_url) (world st)).2;
            sent := sent st ++ [robots_request robots_txt_url] |})
    | Raise e => (Raise e, st)
    end.
Proof.
  destruct (urlparse url) as [parsed|e] eqn:Hp.
  - apply check_run. unfold get_robots_txt_url, mbind, outcome_bind.
    by rewrite Hp.
  - apply check_raise. by apply get_robots_txt_url_raise.
Qed.

(** X2: the requests of a call of [fetch]. None for a URL that [urlparse]
    rejects; for every other URL exactly two, first the robots address
    without headers, then the target with the autonomous user agent,
    whatever the answers are. The requests sent before stay. *)
Theorem fetch_requests `{Environment} (url : str) (max_length start_index : Z)
    (raw : bool) (st : State) :
  sent (fetch url max_length start_index raw st).2 =
    sent st ++
    match urlparse url with
    | Return parsed =>
        [ {| req_url :=
               urlunparse uses_netloc
                 (scheme parsed, netloc parsed, lit "/robots.txt", [], [], []);
             req_headers := [] |}
        ; {| req_url := url;
             req_headers :=
               [(lit "User-Agent", DEFAULT_USER_AGENT_AUTONOMOUS)] |} ]
    | Raise _ => []
    end.
Proof.
  destruct (urlparse url) as [parsed|e] eqn:Hp.
  - apply fetch_sends. unfold get_robots_txt_url, mbind, outcome_bind.
    by rewrite Hp.
  - rewrite (fetch_raise _ _ _ _ _ e) by (by apply get_robots_txt_url_raise).
    simpl. by rewrite app_nil_r.
Qed.

(** X3: for a URL that [urlparse] rejects, [fetch] raises the error of
    [urlparse] and leaves the state as it was. *)
Theorem fetch_rejected_url `{Environment} (url : str)
    (max_length start_index : Z) (raw : bool) (st : State) (e : exn) :
  urlparse url = Raise e ->
  fetch url max_length start_index raw st = (Raise e, st).
Proof. intros Hp. apply fetch_raise. by apply get_robots_txt_url_raise. Qed.

Lemma fetch_rejected_url_witness :
  @fetch Demo.environment (lit "https://[::1/x") 5000 0 false Demo.start =
    (Raise (ValueError (lit "Invalid IPv6 URL")), Demo.start).
Proof.
  apply (@fetch_rejected_url Demo.environment (lit "https://[::1/x") 5000 0
           false Demo.start (ValueError (lit "Invalid IPv6 URL"))).
  by vm_compute.
Defined.

(** X4: when the request for the target fails, [fetch] raises the error of
    the network as it is, after its two requests. *)
Theorem fetch_transport_error `{Environment} (url : str)
    (max_length start_index : Z) (raw : bool) (st : State)
    (robots_txt_url : str) (r1 : outcome Response) (w1 w2 : World) (e : exn) :
  get_robots_txt_url url = Return robots_txt_url ->
  network (robots_request robots_txt_url) (world st) = (r1, w1) ->
  network (target_request url DEFAULT_USER_AGENT_AUTONOMOUS) w1 = (Raise e, w2) ->
  fetch url max_length start_index raw st =
    (Raise e,
     {| world := w2;
        sent := sent st ++ [robots_request robots_txt_url;
                            target_request url DEFAULT_USER_AGENT_AUTONOMOUS] |}).
Proof. intros Hr H1 H2. by rewrite (fetch_run _ _ _ _ _ _ _ _ _ _ Hr H1 H2). Qed.

Lemma fetch_transport_error_witness :
  @fetch Demo.environment (lit "https://quiet.example/missing") 5000 0 false
    Demo.start =
    (Raise (ConnectionError (lit "Connection refused")),
     @Build_State Demo.environment tt
       (sent Demo.start ++
          [robots_request (lit "https://quiet.example/robots.txt");
           target_request (lit "https://quiet.example/missing")
             DEFAULT_USER_AGENT_AUTONOMOUS])).
Proof.
  apply (@fetch_transport_error Demo.environment
           (lit "https://quiet.example/missing") 5000 0 false Demo.start
           (lit "https://quiet.example/robots.txt")
           (Raise (ConnectionError (lit "Connection refused"))) tt tt
           (ConnectionError (lit "Connection refused")));
    by vm_compute.
Defined.

(** ** The three ways through [fetch_url] *)

Section Paths.

Context `{Environment}.

(** What [fetch] returns once the target has answered with a status that
    is no error. *)
Lemma fetch_content url max_length start_index raw st robots_txt_url r1 w1
    response w2 :
  get_robots_txt_url url = Return robots_txt_url ->
  network (robots_request robots_txt_url) (world st) = (r1, w1) ->
  network (target_request url DEFAULT_USER_AGENT_AUTONOMOUS) w1 =
    (Return response, w2) ->
  ~ 400 <= status_code response < 600 ->
  fetch url max_length start_index raw st =
    (content ← match classify response with
               | Html => if raw then Return (text response)
                         else extract_content_from_html (text response)
               | Other => Return (text response)
               end;
     Return (paginate content start_index max_length),
     {| world := w2;
        sent := sent st ++ [robots_request robots_txt_url;
                            target_request url DEFAULT_USER_AGENT_AUTONOMOUS] |}).
Proof.
  intros Hr H1 H2 Hs. rewrite (fetch_run _ _ _ _ _ _ _ _ _ _ Hr H1 H2).
  unfold content_of, classify, mbind, outcome_bind.
  rewrite (raise_for_status_ok response Hs).
  by destruct raw, (Latin1.contains _ _).
Qed.

End Paths.

(** X5: with [raw = True], for every status that is no error, [fetch]
    returns the window of the body as it was received, whatever the content
    type is and whatever the simplifier would do with it. *)
Theorem fetch_raw_returns_body `{Environment} (url : str)
    (max_length start_index : Z) (st : State) (robots_txt_url : str)
    (r1 : outcome Response) (w1 : World) (response : Response) (w2 : World) :
  get_robots_txt_url url = Return robots_txt_url ->
  network (robots_request robots_txt_url) (world st) = (r1, w1) ->
  network (target_request url DEFAULT_USER_AGENT_AUTONOMOUS) w1 =
    (Return response, w2) ->
  ~ 400 <= status_code response < 600 ->
  fetch url max_length start_index true st =
    (Return (paginate (text response) start_index max_length),
     {| world := w2;
        sent := sent st ++ [robots_request robots_txt_url;
                            target_request url DEFAULT_USER_AGENT_AUTONOMOUS] |}).
Proof.
  intros Hr H1 H2 Hs. rewrite (fetch_content _ _ _ _ _ _ _ _ _ _ Hr H1 H2 Hs).
  by destruct (classify response).
Qed.

Lemma fetch_raw_returns_body_witness :
  @fetch Tour.environment (lit "https://example.com/broken") 10 6 true
    Tour.start =
    (Return (paginate Tour.broken 6 10),
     @Build_State Tour.environment tt
       (sent Tour.start ++
          [robots_request (lit "https://example.com/robots.txt");
           target_request (lit "https://example.com/broken")
             DEFAULT_USER_AGENT_AUTONOMOUS])).
Proof.
  apply (@fetch_raw_returns_body Tour.environment
           (lit "https://example.com/broken") 10 6 Tour.start
           (lit "https://example.com/robots.txt")
           (Return (Demo.page 200 "OK" "https://example.com/robots.txt"
                      "text/plain" Demo.robots_txt))
           tt
           (Demo.page 200 "OK" "https://example.com/broken" "text/html"
              Tour.broken)
           tt);
    [by vm_compute | by vm_compute | by vm_compute | simpl; lia].
Defined.

(** X6: for a page of HTML that is not asked raw, when the simplifier
    extracts a content that is not empty, [fetch] returns the window of what
    [markdownify] makes of this content with the heading style ATX: the
    offsets count in the Markdown text, not in the HTML received. *)
Theorem fetch_html_is_simplified `{Environment} (url : str)
    (max_length start_index : Z) (st : State) (robots_txt_url : str)
    (r1 : outcome Response) (w1 : World) (response : Response) (w2 : World)
    (ret : SimpleJson) (c md : str) :
  get_robots_txt_url url = Return robots_txt_url ->
  network (robots_request robots_txt_url) (world st) = (r1, w1) ->
  network (target_request url DEFAULT_USER_AGENT_AUTONOMOUS) w1 =
    (Return response, w2) ->
  ~ 400 <= status_code response < 600 ->
  classify response = Html ->
  simple_json_from_html_string (text response) true = Return ret ->
  content ret = Some c ->
  truthy c = true ->
  markdownify c ATX = Return md ->
  fetch url max_length start_index false st =
    (Return (paginate md start_index max_length),
     {| world := w2;
        sent := sent st ++ [robots_request robots_txt_url;
                            target_request url DEFAULT_USER_AGENT_AUTONOMOUS] |}).
Proof.
  intros Hr H1 H2 Hs Hc Hj Hret Ht Hm.
  rewrite (fetch_content _ _ _ _ _ _ _ _ _ _ Hr H1 H2 Hs), Hc.
  unfold extract_content_from_html, mbind, outcome_bind.
  by rewrite Hj, Hret, Ht, Hm.
Qed.

Lemma fetch_html_is_simplified_witness :
  @fetch Tour.environment (lit "https://example.com/article") 3 1 false
    Tour.start =
    (Return (paginate (lit "Hello") 1 3),
     @Build_State Tour.environment tt
       (sent Tour.start ++
          [robots_request (lit "https://example.com/robots.txt");
           target_request (lit "https://example.com/article")
             DEFAULT_USER_AGENT_AUTONOMOUS])).
Proof.
  apply (@fetch_html_is_simplified Tour.environment
           (lit "https://example.com/article") 3 1 Tour.start
           (lit "https://example.com/robots.txt")
           (Return (Demo.page 200 "OK" "https://example.com/robots.txt"
                      "text/plain" Demo.robots_txt))
           tt
           (Demo.page 200 "OK" "https://example.com/article" "text/html"
              Tour.article)
           tt
           {| title := None; content := Some (lit "<p>Hello</p>") |}
           (lit "<p>Hello</p>") (lit "Hello"));
    [by vm_compute | by vm_compute | by vm_compute | simpl; lia
    | by vm_compute | by vm_compute | done | done | by vm_compute].
Defined.

(** X7: nothing in [fetch] takes an error of the simplifier: when
    [readabilipy] raises on a page of HTML that is not asked raw, or
    [markdownify] raises on the content extracted, [fetch] raises this
    error. *)
Theorem fetch_simplifier_error `{Environment} (url : str)
    (max_length start_index : Z) (st : State) (robots_txt_url : str)
    (r1 : outcome Response) (w1 : World) (response : Response) (w2 : World)
    (e : exn) :
  get_robots_txt_url url = Return robots_txt_url ->
  network (robots_request robots_txt_url) (world st) = (r1, w1) ->
  network (target_request url DEFAULT_USER_AGENT_AUTONOMOUS) w1 =
    (Return response, w2) ->
  ~ 400 <= status_code response < 600 ->
  classify response = Html ->
  simple_json_from_html_string (text response) true = Raise e \/
  (exists ret c,
     simple_json_from_html_string (text response) true = Return ret /\
     content ret = Some c /\ truthy c = true /\
     markdownify c ATX = Raise e) ->
  fetch url max_length start_index false st =
    (Raise e,
     {| world := w2;
        sent := sent st ++ [robots_request robots_txt_url;
                            target_request url DEFAULT_USER_AGENT_AUTONOMOUS] |}).
Proof.
  intros Hr H1 H2 Hs Hc He.
  rewrite (fetch_content _ _ _ _ _ _ _ _ _ _ Hr H1 H2 Hs), Hc.
  unfold extract_content_from_html, mbind, outcome_bind.
  destruct He as [Hj|(ret & c & Hj & Hret & Ht & Hm)].
  - by rewrite Hj.
  - by rewrite Hj, Hret, Ht, Hm.
Qed.

Lemma fetch_simplifier_error_witness :
  @fetch Tour.environment (lit "https://example.com/broken") 5000 0 false
    Tour.start =
    (Raise (OtherException (lit "extraction failed")),
     @Build_State Tour.environment tt
       (sent Tour.start ++
          [robots_request (lit "https://example.com/robots.txt");
           target_request (lit "https://example.com/broken")
             DEFAULT_USER_AGENT_AUTONOMOUS])).
Proof.
  apply (@fetch_simplifier_error Tour.environment
           (lit "https://example.com/broken") 5000 0 Tour.start
           (lit "https://example.com/robots.txt")
           (Return (Demo.page 200 "OK" "https://example.com/robots.txt"
                      "text/plain" Demo.robots_txt))
           tt
           (Demo.page 200 "OK" "https://example.com/broken" "text/html"
              Tour.broken)
           tt
           (OtherException (lit "extraction failed")));
    [by vm_compute | by vm_compute | by vm_compute | simpl; lia
    | by vm_compute | left; by vm_compute].
Defined.

(** X8: for a page of HTML that is not asked raw and from which nothing is
    extracted, [fetch] returns the window of the fixed string of 44
    characters: this string is paginated as a page would be, and an offset
    of 44 or more gives the empty string. *)
Theorem fetch_sentinel_window `{Environment} (url : str)
    (max_length start_index : Z) (st : State) (robots_txt_url : str)
    (r1 : outcome Response) (w1 : World) (response : Response) (w2 : World)
    (ret : SimpleJson) :
  get_robots_txt_url url = Return robots_txt_url ->
  network (robots_request robots_txt_url) (world st) = (r1, w1) ->
  network (target_request url DEFAULT_USER_AGENT_AUTONOMOUS) w1 =
    (Return response, w2) ->
  ~ 400 <= status_code response < 600 ->
  classify response = Html ->
  simple_json_from_html_string (text response) true = Return ret ->
  truthy_opt (content ret) = false ->
  fetch url max_length start_index false st =
    (Return (paginate simplification_failed start_index max_length),
     {| world := w2;
        sent := sent st ++ [robots_request robots_txt_url;
                            target_request url DEFAULT_USER_AGENT_AUTONOMOUS] |}) /\
  (start_index >= 44 ->
   paginate simplification_failed start_index max_length = []).
Proof.
  intros Hr H1 H2 Hs Hc Hj Hret. split.
  - rewrite (fetch_content _ _ _ _ _ _ _ _ _ _ Hr H1 H2 Hs), Hc.
    unfold extract_content_from_html, mbind, outcome_bind. rewrite Hj.
    destruct (content ret) as [c|]; [|done]. simpl in Hret. by rewrite Hret.
  - intros H44. unfold paginate.
    change (len simplification_failed) with 44.
    by destruct (Z.geb_spec start_index 44); [|lia].
Qed.

Lemma fetch_sentinel_window_witness :
  @fetch Demo.environment (lit "https://example.com/empty") 5000 44 false
    Demo.start =
    (Return (paginate simplification_failed 44 5000),
     @Build_State Demo.environment tt
       (sent Demo.start ++
          [robots_request (lit "https://example.com/robots.txt");
           target_request (lit "https://example.com/empty")
             DEFAULT_USER_AGENT_AUTONOMOUS])) /\
  (44 >= 44 -> paginate simplification_failed 44 5000 = []).
Proof.
  apply (@fetch_sentinel_window Demo.environment
           (lit "https://example.com/empty") 5000 44 Demo.start
           (lit "https://example.com/robots.txt")
           (Return (Demo.page 200 "OK" "https://example.com/robots.txt"
                      "text/plain" Demo.robots_txt))
           tt
           (Demo.page 200 "OK" "https://example.com/empty"
              "Text/HTML; charset=utf-8" (lit "<html></html>"))
           tt
           {| title := None; content := None |});
    [by vm_compute | by vm_compute | by vm_compute | simpl; lia
    | by vm_compute | by vm_compute | done].
Defined.

(** ** More on the window *)

(** For arguments that are not negative the window is a [take] of a
    [drop], past the end included. *)
Lemma paginate_nonneg (content : str) (start_index max_length : Z) :
  0 <= start_index -> 0 <= max_length ->
  paginate content start_index max_length =
    take (Z.to_nat max_length) (drop (Z.to_nat start_index) content).
Proof.
  intros Hs Hm. unfold paginate.
  destruct (Z.geb_spec start_index (len content)) as [Hout|Hin].
  - rewrite drop_ge by (unfold len in *; lia). by rewrite take_nil.
  - apply slice_inside; lia.
Qed.

(** X9: two windows that follow each other make the window of their
    lengths together: a reader who moves [start_index] on by [max_length]
    loses and repeats nothing. *)
Theorem paginate_consecutive (content : str) (start_index m1 m2 : Z) :
  0 <= start_index -> 0 <= m1 -> 0 <= m2 ->
  paginate content start_index m1 ++ paginate content (start_index + m1) m2 =
    paginate content start_index (m1 + m2).
Proof.
  intros Hs H1 H2. rewrite !paginate_nonneg by lia.
  rewrite Z2Nat.inj_add by lia. rewrite <- drop_drop.
  rewrite Z2Nat.inj_add by lia. apply take_take_drop.
Qed.

Lemma paginate_consecutive_witness :
  paginate (lit "0123456789ABCDEF") 3 10 ++
  paginate (lit "0123456789ABCDEF") (3 + 10) 10 =
    paginate (lit "0123456789ABCDEF") 3 (10 + 10).
Proof.
  apply (paginate_consecutive (lit "0123456789ABCDEF") 3 10 10); lia.
Defined.

(** X10: the first [n] windows of [max_length] characters, read from offset
    0 on, are together the first [n * max_length] characters of the text;
    they are the whole text as soon as [n * max_length] reaches its
    length. *)
Theorem paginate_covers (content : str) (max_length : Z) (n : nat) :
  0 < max_length ->
  concat (List.map (fun i => paginate content (Z.of_nat i * max_length) max_length)
            (seq 0 n)) =
    take (n * Z.to_nat max_length) content /\
  (len content <= Z.of_nat n * max_length ->
   concat (List.map (fun i => paginate content (Z.of_nat i * max_length) max_length)
             (seq 0 n)) = content).
Proof.
  intros Hm.
  assert (concat (List.map
            (fun i => paginate content (Z.of_nat i * max_length) max_length)
            (seq 0 n)) = take (n * Z.to_nat max_length) content) as Hall.
  { induction n as [|n IH]; [by rewrite take_0|].
    rewrite seq_S, List.map_app, concat_app, IH. simpl.
    rewrite app_nil_r, paginate_nonneg by lia.
    replace (Z.to_nat (Z.of_nat n * max_length))
      with (n * Z.to_nat max_length)%nat by lia.
    rewrite take_take_drop. f_equal. lia. }
  split; [done|]. intros Hlen. rewrite Hall.
  apply take_ge. unfold len in Hlen. lia.
Qed.

Lemma paginate_covers_witness :
  concat (List.map (fun i => paginate (lit "0123456789ABCDEF") (Z.of_nat i * 5) 5)
            (seq 0 4)) =
    take (4 * Z.to_nat 5) (lit "0123456789ABCDEF") /\
  (len (lit "0123456789ABCDEF") <= Z.of_nat 4 * 5 ->
   concat (List.map (fun i => paginate (lit "0123456789ABCDEF") (Z.of_nat i * 5) 5)
             (seq 0 4)) = lit "0123456789ABCDEF").
Proof.
  apply (paginate_covers (lit "0123456789ABCDEF") 5 4). lia.
Defined.

(** X11: for a positive [max_length] the window has at most [max_length]
    characters for every [start_index], the negative ones included. *)
Theorem paginate_bound_any_start (content : str) (start_index max_length : Z) :
  0 < max_length ->
  len (paginate content start_index max_length) <= max_length.
Proof.
  intros Hm. unfold paginate.
  destruct (Z.geb_spec start_index (len content)) as [Hout|Hin].
  - unfold len. simpl. lia.
  - unfold slice, len in *. rewrite length_take, length_drop.
    unfold adjust_index.
    destruct (Z.ltb_spec start_index 0), (Z.ltb_spec (start_index + max_length) 0);
      lia.
Qed.

Lemma paginate_bound_any_start_witness :
  len (paginate (lit "0123456789ABCDEF") (-3) 2) <= 2.
Proof.
  apply (paginate_bound_any_start (lit "0123456789ABCDEF") (-3) 2). lia.
Defined.

(** X12: for all integers [start_index] and [max_length], checked or not,
    the window is a part of the text in one piece: [fetch] returns no
    character that is not in the content, and none out of order. *)
Theorem paginate_is_part (content : str) (start_index max_length : Z) :
  exists before after,
    content = before ++ paginate content start_index max_length ++ after.
Proof.
  unfold paginate. destruct (start_index >=? len content).
  - by exists [], content.
  - unfold slice.
    set (j := Z.to_nat (adjust_index (len content) start_index)).
    set (k := Z.to_nat _).
    exists (take j content), (drop k (drop j content)).
    by rewrite !take_drop.
Qed.

(** X13: a negative [max_length] is not refused. From an offset inside the
    text, with [start_index + max_length] negative, the window runs up to
    [-(start_index + max_length)] characters before the end of the text: it
    has [len(text) + max_length] characters, more than [max_length]. *)
Theorem paginate_negative_length (content : str) (start_index max_length : Z) :
  0 <= start_index < len content ->
  start_index + max_length < 0 ->
  - len content <= max_length ->
  paginate content start_index max_length =
    take (Z.to_nat (len content + max_length))
      (drop (Z.to_nat start_index) content) /\
  len (paginate content start_index max_length) = len content + max_length.
Proof.
  intros Hs Hneg Hm.
  assert (paginate content start_index max_length =
            take (Z.to_nat (len content + max_length))
              (drop (Z.to_nat start_index) content)) as Heq.
  { unfold paginate.
    destruct (Z.geb_spec start_index (len content)); [lia|].
    unfold slice, adjust_index.
    destruct (Z.ltb_spec start_index 0); [lia|].
    destruct (Z.ltb_spec (start_index + max_length) 0); [|lia].
    f_equal; [|f_equal]; lia. }
  split; [done|]. rewrite Heq. unfold len in *.
  rewrite length_take, length_drop. lia.
Qed.

Lemma paginate_negative_length_witness :
  paginate (lit "0123456789ABCDEF") 0 (-1) =
    take (Z.to_nat (len (lit "0123456789ABCDEF") + -1))
      (drop (Z.to_nat 0) (lit "0123456789ABCDEF")) /\
  len (paginate (lit "0123456789ABCDEF") 0 (-1)) =
    len (lit "0123456789ABCDEF") + -1.
Proof.
  apply (paginate_negative_length (lit "0123456789ABCDEF") 0 (-1));
    [vm_compute; split; [discriminate | reflexivity]
    | lia | vm_compute; discriminate].
Defined.

(** X14: a negative [start_index] is not refused: it counts from the end of
    the text. With a positive [max_length] the window begins
    [-start_index] characters before the end; it has [max_length]
    characters when it ends before the end of the text, and otherwise
    [min(max_length - len(text), -start_index)] characters, none when
    [max_length] is at most the length of the text. *)
Theorem paginate_negative_start (content : str) (start_index max_length : Z) :
  - len content <= start_index < 0 ->
  0 < max_length ->
  paginate content start_index max_length =
    take (Z.to_nat (if start_index + max_length <? 0 then max_length
                    else Z.min (max_length - len content) (- start_index)))
      (drop (Z.to_nat (len content + start_index)) content).
Proof.
  intros Hs Hm. unfold paginate.
  destruct (Z.geb_spec start_index (len content));
    [pose proof (Zle_0_nat (length content)); unfold len in *; lia|].
  unfold slice, adjust_index.
  destruct (Z.ltb_spec start_index 0); [|lia].
  destruct (Z.ltb_spec (start_index + max_length) 0).
  - f_equal; [|f_equal]; lia.
  - f_equal; [|f_equal]; lia.
Qed.

Lemma paginate_negative_start_witness :
  paginate (lit "0123456789ABCDEF") (-3) 5000 =
    take (Z.to_nat (if -3 + 5000 <? 0 then 5000
                    else Z.min (5000 - len (lit "0123456789ABCDEF")) (- -3)))
      (drop (Z.to_nat (len (lit "0123456789ABCDEF") + -3))
         (lit "0123456789ABCDEF")).
Proof.
  apply (paginate_negative_start (lit "0123456789ABCDEF") (-3) 5000);
    [vm_compute; split; discriminate || reflexivity | lia].
Defined.

Example negative_arguments :
  paginate (lit "0123456789ABCDEF") 0 (-1) = lit "0123456789ABCDE" /\
  paginate (lit "0123456789ABCDEF") (-3) 5000 = lit "DEF" /\
  paginate (lit "0123456789ABCDEF") (-3) 2 = lit "DE" /\
  paginate (lit "0123456789ABCDEF") (-3) 10 = [].
Proof. by vm_compute. Qed.

(** * Properties of the Factorio server *)

Module FactorioFacts.

Import Rpc Factorio.

(** ** White space *)

Lemma rstrip_cons (c : char) (s : str) :
  isspace c = false -> rstrip (c :: s) = c :: rstrip s.
Proof. intros Hc. simpl. destruct (rstrip s); by rewrite ?Hc. Qed.

Lemma rstrip_snoc (s : str) (c : char) :
  isspace c = false -> rstrip (s ++ [c]) = s ++ [c].
Proof.
  intros Hc. induction s as [|x s IH]; simpl.
  - by rewrite Hc.
  - rewrite IH. by destruct s.
Qed.

Lemma rstrip_rstrip (s : str) : rstrip (rstrip s) = rstrip s.
Proof.
  induction s as [|c s IH]; [done|]. simpl.
  destruct (rstrip s) as [|y r] eqn:Hr.
  - destruct (isspace c) eqn:Hc; [done|]. simpl. by rewrite Hc.
  - change (rstrip (c :: y :: r)) with
      (match rstrip (y :: r) with
       | [] => if isspace c then [] else [c]
       | r' => c :: r'
       end).
    by rewrite IH.
Qed.

Lemma lstrip_rstrip (s : str) : lstrip (rstrip s) = rstrip (lstrip s).
Proof.
  induction s as [|c s IH]; [done|].
  destruct (isspace c) eqn:Hc.
  - change (lstrip (c :: s)) with (if isspace c then lstrip s else c :: s).
    rewrite Hc, <- IH.
    change (rstrip (c :: s)) with
      (match rstrip s with
       | [] => if isspace c then [] else [c]
       | r' => c :: r'
       end).
    destruct (rstrip s) as [|y r]; rewrite ?Hc; [done|].
    change (lstrip (c :: y :: r)) with
      (if isspace c then lstrip (y :: r) else c :: y :: r).
    by rewrite Hc.
  - rewrite rstrip_cons by done. simpl lstrip. rewrite Hc.
    by rewrite rstrip_cons.
Qed.

Lemma strip_rstrip (s : str) : strip (rstrip s) = strip s.
Proof. unfold strip. by rewrite lstrip_rstrip, rstrip_rstrip. Qed.

Lemma lstrip_lstrip (s : str) : lstrip (lstrip s) = lstrip s.
Proof.
  induction s as [|c s IH]; [done|]. simpl.
  destruct (isspace c) eqn:Hc; [done|]. simpl. by rewrite Hc.
Qed.

Lemma strip_strip (s : str) : strip (strip s) = strip s.
Proof.
  unfold strip. by rewrite lstrip_rstrip, lstrip_lstrip, rstrip_rstrip.
Qed.

Lemma slice_from_drop {A} (s : list A) (n : nat) :
  slice_from s (Z.of_nat n) = drop n s.
Proof.
  unfold slice_from, slice, adjust_index, len.
  destruct (Z.ltb_spec (Z.of_nat n) 0); [lia|].
  destruct (Z.ltb_spec (Z.of_nat (length s)) 0); [lia|].
  rewrite Z.min_id.
  destruct (Nat.le_gt_cases n (length s)).
  - rewrite Z.min_l by lia. rewrite Nat2Z.id. apply take_ge.
    rewrite length_drop. lia.
  - rewrite Z.min_r by lia. rewrite Nat2Z.id.
    rewrite !drop_ge by lia. by rewrite take_nil.
Qed.

Lemma cleaned_sc (rest : str) : cleaned (lit "/sc" ++ rest) = strip rest.
Proof.
  unfold cleaned.
  assert (strip (lit "/sc" ++ rest) = lit "/sc" ++ rstrip rest) as ->.
  { unfold strip. change (lit "/sc" ++ rest) with (47 :: 115 :: 99 :: rest)%N.
    change (lstrip (47 :: 115 :: 99 :: rest)%N) with (47 :: 115 :: 99 :: rest)%N.
    by rewrite !rstrip_cons. }
  change (startswith (lit "/sc" ++ rstrip rest) (lit "/sc")) with
    (bool_decide (lit "/sc" = lit "/sc")).
  rewrite bool_decide_eq_true_2 by done.
  rewrite (slice_from_drop _ 3). change (drop 3 (lit "/sc" ++ rstrip rest))
    with (rstrip rest).
  apply strip_rstrip.
Qed.

Lemma cleaned_stripped (code : str) : strip (cleaned code) = cleaned code.
Proof. unfold cleaned. destruct (startswith _ _); apply strip_strip. Qed.

(** ** Runs of the tools *)

Section Runs.

Context `{Server}.

Lemma execute_command_no_key command ses :
  truthy_opt API_KEY = false ->
  execute_command command ses = (Return no_key_error, ses).
Proof.
  intros Hk. unfold execute_command.
  destruct API_KEY as [key|]; [|done]. simpl in Hk. by rewrite Hk.
Qed.

Lemma execute_command_run command ses key r w :
  API_KEY = Some key -> truthy key = true ->
  httpx_post (command_post key command) (remote ses) = (r, w) ->
  execute_command command ses =
    (match r with
     | Return response => result_of response
     | Raise e => Raise e
     end,
     {| remote := w; posted := posted ses ++ [command_post key command] |}).
Proof.
  intros Hk Ht Hp. unfold execute_command, result_of. rewrite Hk, Ht. simpl.
  unfold io_bind, io_post. fold (command_post key command). rewrite Hp.
  destruct r as [response|e]; [|done].
  destruct (negb (status_code response =? 200)); [done|].
  unfold io_call. by destruct (json response).
Qed.

Lemma run_lua_eq code explanation ses :
  run_lua code explanation ses =
    io_bind
      (match explanation with
       | None => io_ret tt
       | Some why =>
           if truthy why then
             io_bind (send_message (lit "Action: " ++ why)) (fun _ => io_ret tt)
           else io_ret tt
       end)
      (fun _ => execute_command (lit "/sc " ++ cleaned code)) ses.
Proof. done. Qed.

Lemma run_lua_no_key code explanation ses :
  truthy_opt API_KEY = false ->
  run_lua code explanation ses = (Return no_key_error, ses).
Proof.
  intros Hk. rewrite run_lua_eq. unfold io_bind, send_message.
  destruct explanation as [why|]; [destruct (truthy why)|];
    rewrite ?(execute_command_no_key _ _ Hk); unfold io_ret;
    by rewrite (execute_command_no_key _ _ Hk).
Qed.

(** A run of [run_lua] with an explanation, from the answer to the
    announcement. *)
Lemma run_lua_announced code why ses key r w :
  API_KEY = Some key -> truthy key = true -> truthy why = true ->
  httpx_post
    (command_post key
       (lit "/sc game.print(" ++ quote ++ lit "[MCP] " ++
        (lit "Action: " ++ why) ++ quote ++ lit ")"))
    (remote ses) = (r, w) ->
  run_lua code (Some why) ses =
    let ses1 :=
      {| remote := w;
         posted := posted ses ++
           [command_post key
              (lit "/sc game.print(" ++ quote ++ lit "[MCP] " ++
               (lit "Action: " ++ why) ++ quote ++ lit ")")] |} in
    match (match r with
           | Return response => result_of response
           | Raise e => Raise e
           end) with
    | Return _ => execute_command (lit "/sc " ++ cleaned code) ses1
    | Raise e => (Raise e, ses1)
    end.
Proof.
  intros Hk Ht Hw Hp. rewrite run_lua_eq, Hw.
  unfold io_bind at 1. unfold io_bind at 1. unfold send_message.
  rewrite (execute_command_run _ _ _ _ _ Hk Ht Hp). simpl.
  by destruct (match r with Return _ => _ | Raise _ => _ end).
Qed.

End Runs.

(** ** Without an API key *)

(** X15: in a process without an API key (the variable not set, or empty),
    [run_lua] posts nothing, with or without an explanation, and returns the
    text of the error as its result. *)
Theorem run_lua_without_key `{Server} (code : str) (explanation : option str)
    (ses : Session Remote Post) :
  truthy_opt API_KEY = false ->
  run_lua code explanation ses =
    (Return (JString (lit "Error: API_KEY environment variable not set")), ses).
Proof.
  intros Hk. by apply run_lua_no_key.
Qed.

Lemma run_lua_without_key_witness :
  @run_lua Demo.keyless (lit "game.speed = 2") (Some (lit "faster"))
    (Demo.start Demo.keyless tt) =
    (Return (JString (lit "Error: API_KEY environment variable not set")),
     Demo.start Demo.keyless tt).
Proof.
  apply (@run_lua_without_key Demo.keyless (lit "game.speed = 2")
           (Some (lit "faster")) (Demo.start Demo.keyless tt)).
  done.
Defined.

(** ** The answers of the backend *)

(** X16: an answer with a status other than 200 is no exception:
    [execute_command] returns a text made of the status and the body of the
    answer, after its one request. *)
Theorem execute_command_error_status `{Server} (command : str)
    (ses : Session Remote Post) (key : str) (response : HttpxResponse)
    (w : Remote) :
  API_KEY = Some key -> truthy key = true ->
  httpx_post (command_post key command) (remote ses) = (Return response, w) ->
  status_code response <> 200 ->
  execute_command command ses =
    (Return (JString (lit "Error: " ++ str_of_int (status_code response) ++
                      lit " - " ++ text response)),
     {| remote := w; posted := posted ses ++ [command_post key command] |}).
Proof.
  intros Hk Ht Hp Hs. rewrite (execute_command_run _ _ _ _ _ Hk Ht Hp).
  unfold result_of. by destruct (Z.eqb_spec (status_code response) 200).
Qed.

Lemma execute_command_error_status_witness :
  @execute_command Demo.server (lit "/sc game.print(1)")
    (Demo.start Demo.server tt) =
    (Return (JString (lit "Error: " ++ str_of_int 500 ++
                      lit " - " ++ lit "rcon down")),
     {| remote := tt;
        posted := [] ++ [@command_post Demo.server (lit "secret")
                           (lit "/sc game.print(1)")] |}).
Proof.
  apply (@execute_command_error_status Demo.server (lit "/sc game.print(1)")
           (Demo.start Demo.server tt) (lit "secret")
           {| status_code := 500; text := lit "rcon down";
              json := Raise (ValueError (lit "Expecting value")) |} tt);
    by vm_compute.
Defined.

(** X17: for an answer with the status 200 whose body is an object of JSON,
    [execute_command] returns the member ["result"] of the object, whatever
    value it is, and raises a [KeyError] when the object has no such
    member. *)
Theorem execute_command_result `{Server} (command : str)
    (ses : Session Remote Post) (key : str) (response : HttpxResponse)
    (w : Remote) (members : list (str * value)) :
  API_KEY = Some key -> truthy key = true ->
  httpx_post (command_post key command) (remote ses) = (Return response, w) ->
  status_code response = 200 ->
  json response = Return (JObject members) ->
  execute_command command ses =
    (match lookup_member members (lit "result") with
     | Some v => Return v
     | None => Raise (KeyError (lit "result"))
     end,
     {| remote := w; posted := posted ses ++ [command_post key command] |}).
Proof.
  intros Hk Ht Hp Hs Hj. rewrite (execute_command_run _ _ _ _ _ Hk Ht Hp).
  unfold result_of. by rewrite Hs, Hj.
Qed.

Lemma execute_command_result_witness :
  @execute_command Demo.server (lit "/players online")
    (Demo.start Demo.server tt) =
    (match lookup_member [(lit "result", JString (lit "Online players (0):"))]
             (lit "result") with
     | Some v => Return v
     | None => Raise (KeyError (lit "result"))
     end,
     {| remote := tt;
        posted := [] ++ [@command_post Demo.server (lit "secret")
                           (lit "/players online")] |}).
Proof.
  apply (@execute_command_result Demo.server (lit "/players online")
           (Demo.start Demo.server tt) (lit "secret")
           {| status_code := 200; text := lit "{}";
              json := Return (JObject [(lit "result",
                                        JString (lit "Online players (0):"))]) |}
           tt [(lit "result", JString (lit "Online players (0):"))]);
    by vm_compute.
Defined.

(** ** The code [run_lua] runs *)

(** X18: [run_lua] takes the three characters [/sc] off the front of its
    code without asking what follows them: the code [/sc] followed by
    [rest] is run as the command [/sc], a space, and [rest] without the
    white space at its ends. *)
Theorem run_lua_strips_sc `{Server} (rest : str) (ses : Session Remote Post) :
  run_lua (lit "/sc" ++ rest) None ses =
    execute_command (lit "/sc " ++ strip rest) ses.
Proof. rewrite run_lua_eq, cleaned_sc. done. Qed.

Example run_lua_takes_a_longer_word :
  @run_lua Demo.silent (lit "/screenshot") None (Demo.start Demo.silent tt) =
    @execute_command Demo.silent (lit "/sc reenshot")
      (Demo.start Demo.silent tt) /\
  @run_lua Demo.silent (lit "/sc /sc game.tick") None
    (Demo.start Demo.silent tt) =
    @execute_command Demo.silent (lit "/sc /sc game.tick")
      (Demo.start Demo.silent tt).
Proof. split; by vm_compute. Qed.

(** X19: whatever its arguments are and whatever the backend answers,
    [run_lua] posts at most two requests, and each of them carries a command
    that begins with [/sc] and a space. *)
Theorem run_lua_commands `{Server} (code : str) (explanation : option str)
    (ses : Session Remote Post) :
  exists l,
    posted (run_lua code explanation ses).2 = posted ses ++ l /\
    (length l <= 2)%nat /\
    Forall (fun req => exists rest, command_of req = Some (lit "/sc " ++ rest)) l.
Proof.
  rewrite run_lua_eq.
  destruct (truthy_opt API_KEY) eqn:Hk.
  - destruct API_KEY as [key|] eqn:Hkey; [|done]. simpl in Hk.
    assert (forall (ses0 : Session Remote Post) rest,
              exists l,
                posted (execute_command (lit "/sc " ++ rest) ses0).2 =
                  posted ses0 ++ l /\
                (length l <= 1)%nat /\
                Forall (fun req =>
                          exists rest, command_of req = Some (lit "/sc " ++ rest)) l)
      as Hone.
    { intros ses0 rest0.
      destruct (httpx_post (command_post key (lit "/sc " ++ rest0)) (remote ses0))
        as [r w] eqn:Hp.
      rewrite (execute_command_run _ _ _ _ _ Hkey Hk Hp). simpl.
      eexists. split; [done|]. split; [simpl; lia|].
      apply Forall_singleton. by exists rest0. }
    unfold io_bind at 1.
    destruct explanation as [why|]; [destruct (truthy why)|].
    + unfold io_bind at 1. unfold send_message.
      change (lit "/sc game.print(" ++ quote ++ lit "[MCP] " ++
              (lit "Action: " ++ why) ++ quote ++ lit ")")
        with (lit "/sc " ++ lit "game.print(" ++ quote ++ lit "[MCP] " ++
              (lit "Action: " ++ why) ++ quote ++ lit ")").
      destruct (Hone ses (lit "game.print(" ++ quote ++ lit "[MCP] " ++
                          (lit "Action: " ++ why) ++ quote ++ lit ")"))
        as (l1 & Hl1 & Hn1 & Hf1).
      destruct (execute_command _ ses) as [[v|e] ses1]; simpl in Hl1.
      * unfold io_ret.
        destruct (Hone ses1 (cleaned code)) as (l2 & Hl2 & Hn2 & Hf2).
        exists (l1 ++ l2). rewrite Hl2, Hl1, app_assoc.
        split; [done|]. split; [rewrite length_app; lia|].
        by apply Forall_app.
      * exists l1. simpl. split; [done|]. split; [lia|done].
    + unfold io_ret.
      destruct (Hone ses (cleaned code)) as (l & Hl & Hn & Hf).
      exists l. split; [done|]. split; [lia|done].
    + unfold io_ret.
      destruct (Hone ses (cleaned code)) as (l & Hl & Hn & Hf).
      exists l. split; [done|]. split; [lia|done].
  - exists []. rewrite <- run_lua_eq, (run_lua_no_key _ _ _ Hk).
    simpl. rewrite app_nil_r. split; [done|]. split; [lia|done].
Qed.

(** ** The announcement *)

(** X20: an announcement that the backend answers with a status other than
    200 does not stop [run_lua]: the text of the error is dropped, and the
    code is run all the same. *)
Theorem run_lua_ignores_refused_announcement `{Server} (code why : str)
    (ses : Session Remote Post) (key : str) (response : HttpxResponse)
    (w : Remote) :
  API_KEY = Some key -> truthy key = true -> truthy why = true ->
  httpx_post
    (command_post key
       (lit "/sc game.print(" ++ quote ++ lit "[MCP] " ++
        (lit "Action: " ++ why) ++ quote ++ lit ")"))
    (remote ses) = (Return response, w) ->
  status_code response <> 200 ->
  run_lua code (Some why) ses =
    execute_command (lit "/sc " ++ cleaned code)
      {| remote := w;
         posted := posted ses ++
           [command_post key
              (lit "/sc game.print(" ++ quote ++ lit "[MCP] " ++
               (lit "Action: " ++ why) ++ quote ++ lit ")")] |}.
Proof.
  intros Hk Ht Hw Hp Hs. rewrite (run_lua_announced _ _ _ _ _ _ Hk Ht Hw Hp).
  unfold result_of. by destruct (Z.eqb_spec (status_code response) 200).
Qed.

Lemma run_lua_ignores_refused_announcement_witness :
  @run_lua Demo.server (lit "game.speed = 2") (Some (lit "faster"))
    (Demo.start Demo.server tt) =
    @execute_command Demo.server (lit "/sc " ++ cleaned (lit "game.speed = 2"))
      {| remote := tt;
         posted := [] ++
           [@command_post Demo.server (lit "secret")
              (lit "/sc game.print(" ++ quote ++ lit "[MCP] " ++
               (lit "Action: " ++ lit "faster") ++ quote ++ lit ")")] |}.
Proof.
  apply (@run_lua_ignores_refused_announcement Demo.server
           (lit "game.speed = 2") (lit "faster") (Demo.start Demo.server tt)
           (lit "secret")
           {| status_code := 500; text := lit "rcon down";
              json := Raise (ValueError (lit "Expecting value")) |} tt);
    by vm_compute.
Defined.

(** X21: an announcement that raises stops [run_lua] before the code is
    posted: when the request fails, or the answer has the status 200 and a
    body that is not JSON or has no member ["result"], [run_lua] raises this
    error and the announcement is the only request it has sent. *)
Theorem run_lua_stops_on_announcement_error `{Server} (code why : str)
    (ses : Session Remote Post) (key : str) (r : outcome HttpxResponse)
    (w : Remote) (e : exn) :
  API_KEY = Some key -> truthy key = true -> truthy why = true ->
  httpx_post
    (command_post key
       (lit "/sc game.print(" ++ quote ++ lit "[MCP] " ++
        (lit "Action: " ++ why) ++ quote ++ lit ")"))
    (remote ses) = (r, w) ->
  r = Raise e \/
  (exists response,
     r = Return response /\ status_code response = 200 /\
     (json response = Raise e \/
      exists data, json response = Return data /\
                   getitem data (lit "result") = Raise e)) ->
  run_lua code (Some why) ses =
    (Raise e,
     {| remote := w;
        posted := posted ses ++
          [command_post key
             (lit "/sc game.print(" ++ quote ++ lit "[MCP] " ++
              (lit "Action: " ++ why) ++ quote ++ lit ")")] |}).
Proof.
  intros Hk Ht Hw Hp He. rewrite (run_lua_announced _ _ _ _ _ _ Hk Ht Hw Hp).
  destruct He as [->|(response & -> & Hs & [Hj|(data & Hj & Hg)])];
    [done| |]; unfold result_of; rewrite Hs, Hj; simpl; by rewrite ?Hg.
Qed.

Lemma run_lua_stops_on_announcement_error_witness :
  @run_lua Demo.silent (lit "game.speed = 2") (Some (lit "faster"))
    (Demo.start Demo.silent tt) =
    (Raise (KeyError (lit "result")),
     {| remote := tt;
        posted := [] ++
          [@command_post Demo.silent (lit "secret")
             (lit "/sc game.print(" ++ quote ++ lit "[MCP] " ++
              (lit "Action: " ++ lit "faster") ++ quote ++ lit ")")] |}).
Proof.
  apply (@run_lua_stops_on_announcement_error Demo.silent
           (lit "game.speed = 2") (lit "faster") (Demo.start Demo.silent tt)
           (lit "secret")
           (Return {| status_code := 200; text := lit "{}";
                      json := Return (JObject []) |})
           tt (KeyError (lit "result")));
    [by vm_compute | by vm_compute | by vm_compute | by vm_compute |].
  right. eexists. split; [reflexivity|]. split; [reflexivity|].
  right. exists (JObject []). split; reflexivity.
Defined.

(** ** [give_items] *)

(** X22: [give_items] always announces what it gives, and then runs the
    insertion with the names of the player and of the item put into the Lua
    code as they are: the clean-up of [run_lua] leaves this code unchanged,
    whatever the names contain. *)
Theorem give_items_commands `{Server} (player item : str) (count : Z)
    (ses : Session Remote Post) :
  give_items player item count ses =
    io_bind
      (send_message
         (lit "Action: " ++ lit "Giving " ++ str_of_int count ++ lit "x " ++
          item ++ lit " to " ++ player))
      (fun _ =>
         execute_command
           (lit "/sc " ++ lit "game.players[" ++ quote ++ player ++ quote ++
            lit "].insert{name=" ++ quote ++ item ++ quote ++
            lit ", count=" ++ str_of_int count ++ lit "}"))
      ses.
Proof.
  unfold give_items. rewrite run_lua_eq.
  set (code := lit "game.players[" ++ _).
  assert (cleaned code = code) as ->.
  { assert (strip code = code) as Hstrip.
    { unfold strip.
      assert (lstrip code = code) as -> by done.
      subst code. rewrite !app_assoc. by apply rstrip_snoc. }
    unfold cleaned. rewrite Hstrip. done. }
  unfold io_bind.
  change (truthy (lit "Giving " ++ str_of_int count ++ lit "x " ++ item ++
                  lit " to " ++ player)) with true.
  cbv iota beta.
  by destruct (send_message _ ses) as [[v|e] ses1].
Qed.

End FactorioFacts.

(** * Properties of the door server *)

Module DoorFacts.

Import Rpc Door.

(** X23: [lock_door] does not look at the status of the answer: for every
    answer of the backend, a refusal or a failure included, it returns the
    text [Door locked with status] and the status, after its one request to
    [/api/lock] under [DOOR_URL]. *)
Theorem lock_door_reports_any_status `{Home} (ses : Session Remote Post)
    (response : Response) (w : Remote) :
  requests_post
    {| post_url := format_opt DOOR_URL ++ lit "/api/lock";
       post_headers := [(lit "x-api-key", DOOR_API_KEY)] |}
    (remote ses) = (Return response, w) ->
  lock_door ses =
    (Return (lit "Door locked with status " ++
             str_of_int (status_code response)),
     {| remote := w;
        posted := posted ses ++
          [{| post_url := format_opt DOOR_URL ++ lit "/api/lock";
              post_headers := [(lit "x-api-key", DOOR_API_KEY)] |}] |}).
Proof.
  intros Hp. unfold lock_door, io_bind, io_post, headers. by rewrite Hp.
Qed.

Lemma lock_door_reports_any_status_witness :
  @lock_door Demo.home Demo.start =
    (Return (lit "Door locked with status " ++ str_of_int 401),
     {| remote := tt;
        posted := [] ++
          [{| post_url := lit "http://door.local" ++ lit "/api/lock";
              post_headers := [(lit "x-api-key", None)] |}] |}).
Proof.
  apply (@lock_door_reports_any_status Demo.home Demo.start
           (Build_Response 401 (lit "Unauthorized")
              (lit "http://door.local/api/lock") ∅ (lit "bad key")) tt).
  by vm_compute.
Defined.

End DoorFacts.
